(** * A shallow embedding of [src/booking_scraper.py] (HotelScraper)

    Python text is a sequence of Unicode code points, modelled as [list N].
    The character classes Python consults ([str.isspace], [str.isdigit],
    the decimal digits used by [float()] and by the regex class [\d]) come
    from the Unicode database; the embedding takes them as a record [ucd],
    and [ucd_latin1] is an instance that is exact on the Latin-1 block.

    A Python [float] is modelled by the exact decimal value it is parsed from:
    [PFin q] stands for the binary64 double nearest to [q] (round half to
    even), and [PInf] for the infinity that [float()] returns when [q] reaches
    the overflow threshold [2^1024 - 2^970].  Two [PFin] values with equal
    exact decimals are therefore equal floats. *)

From Stdlib Require Import List String Ascii ZArith QArith Lia Bool.
Import ListNotations.

Definition pychar := N.
Definition pystr := list pychar.

(** ASCII literals as Python text. *)
Definition pys (s : string) : pystr :=
  map (fun a => N_of_ascii a) (list_ascii_of_string s).

(** The parts of the Unicode database the code relies on. *)
Record ucd := {
  uc_isspace : pychar -> bool;          (* str.isspace, used by strip/split *)
  uc_isdigit : pychar -> bool;          (* str.isdigit *)
  uc_decimal : pychar -> option nat     (* decimal digit value (category Nd) *)
}.

(** Latin-1 instance: whitespace is \t\n\v\f\r, \x1c-\x1f, space, \x85 and
    \xa0; the digits are '0'..'9' and the superscripts one, two and three
    (which are digits but not decimal digits); code points above the Latin-1
    block are given no class. *)
Local Open Scope N_scope.
Definition latin1_isspace (c : pychar) : bool :=
  ((9 <=? c) && (c <=? 13)) || ((28 <=? c) && (c <=? 32)) || (c =? 133) || (c =? 160).
Definition latin1_decimal (c : pychar) : option nat :=
  if (48 <=? c) && (c <=? 57) then Some (N.to_nat (c - 48)) else None.
Definition latin1_isdigit (c : pychar) : bool :=
  ((48 <=? c) && (c <=? 57)) || (c =? 178) || (c =? 179) || (c =? 185).
Definition ucd_latin1 : ucd :=
  {| uc_isspace := latin1_isspace; uc_isdigit := latin1_isdigit;
     uc_decimal := latin1_decimal |}.
Local Close Scope N_scope.

(** ** Python floats *)

Inductive pyfloat :=
| PFin (q : Q)
| PInf.

(** [(2^53 - 1/2) * 2^971]: the first value [float()] rounds to infinity. *)
Definition float_overflow : Q := inject_Z (2 ^ 1024 - 2 ^ 970)%Z.

Definition to_pyfloat (q : Q) : pyfloat :=
  if Qle_bool float_overflow q then PInf else PFin q.

(** The float literal [m * 10^-k] of the Python source, e.g. [123.45]. *)
Definition pyfloat_lit (m : Z) (k : nat) : pyfloat :=
  to_pyfloat (m # Pos.of_nat (10 ^ k)).

Definition pyfloat_eqb (a b : pyfloat) : bool :=
  match a, b with
  | PFin x, PFin y => Qeq_bool x y
  | PInf, PInf => true
  | _, _ => false
  end.


Section Text.
Variable u : ucd.

Definition is_dec (c : pychar) : bool :=
  match uc_decimal u c with Some _ => true | None => false end.

Definition dot : pychar := 46%N.

(** [str.strip()] with no argument. *)
Fixpoint lstrip (s : pystr) : pystr :=
  match s with
  | c :: s' => if uc_isspace u c then lstrip s' else s
  | [] => []
  end.

Definition py_strip (s : pystr) : pystr := rev (lstrip (rev (lstrip s))).

(** [str.split()] with no argument: maximal runs of non-whitespace. *)
Fixpoint split_aux (s : pystr) (cur : pystr) : list pystr :=
  match s with
  | [] => match cur with [] => [] | _ => [rev cur] end
  | c :: s' =>
      if uc_isspace u c then
        match cur with [] => split_aux s' [] | _ => rev cur :: split_aux s' [] end
      else split_aux s' (c :: cur)
  end.

Definition py_split (s : pystr) : list pystr := split_aux s [].

(** Longest prefix of decimal digits. *)
Fixpoint span_dec (s : pystr) : pystr * pystr :=
  match s with
  | c :: s' => if is_dec c then let (d, r) := span_dec s' in (c :: d, r) else ([], s)
  | [] => ([], [])
  end.

Definition digits_value (d : pystr) : Z :=
  fold_left (fun acc c =>
               (acc * 10 + Z.of_nat (match uc_decimal u c with Some v => v | None => 0%nat end))%Z)
            d 0%Z.

Definition dec_value (ip fp : pystr) : Q :=
  digits_value (ip ++ fp) # Pos.of_nat (10 ^ List.length fp)%nat.

(** [float(s)], on the strings the code hands to it: these consist of
    digit characters and '.' only (the cleaned price, a regex match), and on
    them Python's float grammar reduces to [digits ['.' digits]] or
    ['.' digits] with at least one digit, all decimal.  [None] is the
    [ValueError]. *)
Definition py_float (s : pystr) : option pyfloat :=
  let (ip, rest) := span_dec s in
  match rest with
  | [] => match ip with [] => None | _ => Some (to_pyfloat (dec_value ip [])) end
  | c :: rest' =>
      if (c =? dot)%N then
        let (fp, rest'') := span_dec rest' in
        match rest'', ip, fp with
        | _ :: _, _, _ => None
        | [], [], [] => None
        | [], _, _ => Some (to_pyfloat (dec_value ip fp))
        end
      else None
  end.

(** [HotelScraper._clean_price]. *)
Definition clean_price (price_text : pystr) : pyfloat :=
  match price_text with
  | [] => PFin 0
  | _ =>
      let cleaned := filter (fun c => uc_isdigit u c || (c =? dot)%N) price_text in
      match py_split cleaned with
      | n0 :: _ => match py_float n0 with Some f => f | None => PFin 0 end
      | [] => PFin 0
      end
  end.

(** ** Regular expressions, as Python's backtracking engine runs them *)

Inductive regex :=
| RChar (c : pychar)
| RPlus (p : pychar -> bool)          (* [p+], greedy *)
| RSeq (r1 r2 : regex)
| RAlt (r1 r2 : regex).

(** [re_match r s k]: match [r] at the start of [s], passing the rest to
    the continuation [k]; alternatives and repetitions are tried in Python's
    order (left branch first, longest repetition first). *)
Fixpoint re_match (r : regex) (s : pystr) (k : pystr -> option pystr) : option pystr :=
  match r with
  | RChar c0 =>
      match s with c :: s' => if (c =? c0)%N then k s' else None | [] => None end
  | RPlus p =>
      (fix plus (s : pystr) : option pystr :=
         match s with
         | c :: s' =>
             if p c then match plus s' with Some r => Some r | None => k s' end
             else None
         | [] => None
         end) s
  | RSeq r1 r2 => re_match r1 s (fun s' => re_match r2 s' k)
  | RAlt r1 r2 =>
      match re_match r1 s k with Some r => Some r | None => re_match r2 s k end
  end.

(** The first match of [re.findall]: leftmost start position. *)
Fixpoint re_search (r : regex) (s : pystr) : option pystr :=
  match re_match r s (fun rest => Some rest) with
  | Some rest => Some (firstn (List.length s - List.length rest)%nat s)
  | None => match s with [] => None | _ :: s' => re_search r s' end
  end.

(** [r"(\d+\.\d+|\d+)"] *)
Definition rating_re : regex :=
  RAlt (RSeq (RPlus is_dec) (RSeq (RChar dot) (RPlus is_dec))) (RPlus is_dec).

(** [HotelScraper._clean_rating]. *)
Definition clean_rating (rating_text : pystr) : pyfloat :=
  match rating_text with
  | [] => PFin 0
  | _ =>
      match re_search rating_re rating_text with
      | Some n0 => match py_float n0 with Some f => f | None => PFin 0 end
      | None => PFin 0
      end
  end.

End Text.

(** ** Exceptions, logging and the scraper's state *)

(** The exceptions the code distinguishes; every other error of the driver
    (stale element, lost session, JavaScript error, ...) is a
    [WebDriverException]. *)
Inductive exn :=
| NoSuchElementException
| TimeoutException
| WebDriverException (msg : string).

Inductive res (A : Type) :=
| Ok (a : A)
| Raise (e : exn).
Arguments Ok {A} a.
Arguments Raise {A} e.

Inductive level := INFO | WARNING | ERROR.

(** Browser actions whose order the claims are about. *)
Inductive event :=
| EvWaitCards (page : nat)     (* wait for "[data-testid='property-card']" *)
| EvClickNext (page : nat).    (* click of the next-page control *)

(** A result card: for each CSS selector, the outcome of
    [card.find_element(By.CSS_SELECTOR, sel).text] on its first match;
    a selector absent from the list matches nothing. *)
Definition card := list (string * res pystr).

(** A rendered results page: the outcome of the wait for property cards,
    of [find_elements] for them, and for each selector whether the wait for
    a clickable match succeeds (absent selectors time out). *)
Record page := {
  pg_wait : res unit;
  pg_cards : res (list card);
  pg_clickable : list (string * res unit)
}.

(** The browser as seen by one call of [scrape_hotel_data]: the outcome of
    [driver.get(url)], the page shown after [i] next-page clicks, and the
    time [pd.Timestamp.now()] returns. *)
Record env := {
  env_get : string -> res unit;
  env_page : nat -> page;
  env_now : Z
}.

(** The dictionary built by [_extract_single_hotel]. *)
Record hotel := {
  hotel_name : pystr;
  price : pyfloat;
  rating : pyfloat;
  location : pystr;
  review_count : pystr;
  distance : pystr
}.

(** A DataFrame row: the hotel's columns and [scraped_at]. *)
Record row := { row_hotel : hotel; scraped_at : Z }.
Definition frame := list row.

(** The HotelScraper instance ([self.data]), the log, the browser actions
    performed so far, and the browser's current page. *)
Record St := {
  data : list hotel;
  logs : list (level * string);
  events : list event;
  cur_page : nat
}.

Definition set_data (d : list hotel) (st : St) : St :=
  {| data := d; logs := logs st; events := events st; cur_page := cur_page st |}.
Definition set_logs (l : list (level * string)) (st : St) : St :=
  {| data := data st; logs := l; events := events st; cur_page := cur_page st |}.
Definition set_events (e : list event) (st : St) : St :=
  {| data := data st; logs := logs st; events := e; cur_page := cur_page st |}.
Definition set_page (p : nat) (st : St) : St :=
  {| data := data st; logs := logs st; events := events st; cur_page := p |}.

(** [HotelScraper.__init__] after a successful [setup_driver]. *)
Definition new_scraper : St :=
  {| data := []; logs := [(INFO, "HotelScraper initialized successfully"%string)];
     events := []; cur_page := 0 |}.

(** Python statements: state passing with exceptions; the state changes made
    before an exception are kept. *)
Definition M (A : Type) := St -> res A * St.

Definition ret {A} (a : A) : M A := fun st => (Ok a, st).
Definition bind {A B} (m : M A) (f : A -> M B) : M B :=
  fun st => match m st with
            | (Ok a, st') => f a st'
            | (Raise e, st') => (Raise e, st')
            end.
Definition raise {A} (e : exn) : M A := fun st => (Raise e, st).
Definition lift {A} (r : res A) : M A :=
  match r with Ok a => ret a | Raise e => raise e end.
(** [try: m except ...: h e]; a handler that does not catch [e] re-raises. *)
Definition try_except {A} (m : M A) (h : exn -> M A) : M A :=
  fun st => match m st with
            | (Raise e, st') => h e st'
            | r => r
            end.

Notation "x <- m ;; k" := (bind m (fun x => k))
  (at level 61, m at next level, right associativity).
Notation "m ;; k" := (bind m (fun _ => k))
  (at level 61, right associativity).

Definition log (lvl : level) (msg : string) : M unit :=
  fun st => (Ok tt, set_logs (logs st ++ [(lvl, msg)]) st).
Definition emit (ev : event) : M unit :=
  fun st => (Ok tt, set_events (events st ++ [ev]) st).
Definition get_page : M nat := fun st => (Ok (cur_page st), st).
Definition len_data : M Z := fun st => (Ok (Z.of_nat (List.length (data st))), st).
Definition append_data (h : hotel) : M unit :=
  fun st => (Ok tt, set_data (data st ++ [h]) st).

Section Scraper.
Variable u : ucd.
Variable E : env.

Local Open Scope string_scope.

Definition lookup_sel {A} (l : list (string * res A)) (sel : string) (dflt : exn) : res A :=
  match find (fun p => String.eqb (fst p) sel) l with
  | Some (_, r) => r
  | None => Raise dflt
  end.

(** [parent_element.find_element(By.CSS_SELECTOR, sel).text] *)
Definition find_element (parent : card) (sel : string) : res pystr :=
  lookup_sel parent sel NoSuchElementException.

Definition current : St -> page := fun st => env_page E (cur_page st).

(** [self.wait.until(EC.element_to_be_clickable((By.CSS_SELECTOR, sel)))] *)
Definition wait_clickable (sel : string) : M unit :=
  fun st => lift (lookup_sel (pg_clickable (current st)) sel TimeoutException) st.

(** [HotelScraper.accept_cookies] *)
Definition cookie_selectors : list string :=
  [ "button#onetrust-accept-btn-handler";
    "button[id='onetrust-accept-btn-handler']";
    "button[aria-label*='cookie']";
    "button[class*='cookie']";
    "button[data-testid*='cookie']" ].

Fixpoint try_cookie_selectors (sels : list string) : M bool :=
  match sels with
  | [] => log INFO "No cookie consent banner found";; ret false
  | sel :: rest =>
      try_except
        (wait_clickable sel;; log INFO "Cookies accepted successfully";; ret true)
        (fun e => match e with
                  | TimeoutException => try_cookie_selectors rest
                  | _ => raise e
                  end)
  end.

Definition accept_cookies : M bool :=
  try_except (try_cookie_selectors cookie_selectors)
             (fun _ => log WARNING "Could not handle cookies";; ret false).

(** [HotelScraper._safe_extract_text] *)
Definition safe_extract_text (parent_element : card) (css_selector : string) : M pystr :=
  try_except
    (element <- lift (find_element parent_element css_selector);;
     ret (py_strip u element))
    (fun e => match e with
              | NoSuchElementException => ret []
              | _ => raise e
              end).

Definition sel_title := "[data-testid='title']".
Definition sel_price := "[data-testid='price-and-discounted-price']".
Definition sel_rating := "[data-testid='review-score']".
Definition sel_location := "[data-testid='location']".
Definition sel_review_count := "[data-testid='review-score'] div:last-child".
Definition sel_distance := "[data-testid='distance']".

(** [HotelScraper._extract_single_hotel] *)
Definition extract_single_hotel (c : card) : M (option hotel) :=
  try_except
    (hotel_name <- safe_extract_text c sel_title;;
     price_text <- safe_extract_text c sel_price;;
     rating_text <- safe_extract_text c sel_rating;;
     location <- safe_extract_text c sel_location;;
     review_count <- safe_extract_text c sel_review_count;;
     distance <- safe_extract_text c sel_distance;;
     ret (Some {| hotel_name := hotel_name;
                  price := clean_price u price_text;
                  rating := clean_rating u rating_text;
                  location := location;
                  review_count := review_count;
                  distance := distance |}))
    (fun _ => log WARNING "Error extracting single hotel";; ret None).

(** The loop over [enumerate(hotel_cards)] in [_scrape_current_page]; the
    truth test [hotel_data and hotel_data['hotel_name']] holds when a
    dictionary came back and its name is a non-empty string. *)
Fixpoint scrape_cards (i : nat) (cards : list card) : M unit :=
  match cards with
  | [] => ret tt
  | c :: cs =>
      try_except
        (hotel_data <- extract_single_hotel c;;
         match hotel_data with
         | Some h => match hotel_name h with
                     | [] => ret tt
                     | _ => append_data h
                     end
         | None => ret tt
         end)
        (fun _ => log WARNING "Failed to extract data from hotel card";; ret tt);;
      scrape_cards (S i) cs
  end.

(** [self.driver.find_elements(By.CSS_SELECTOR, "[data-testid='property-card']")] *)
Definition find_cards : M (list card) := fun st => lift (pg_cards (current st)) st.

(** [HotelScraper._scrape_current_page] *)
Definition scrape_current_page : M Z :=
  hotels_before <- len_data;;
  try_except
    (hotel_cards <- find_cards;;
     log INFO "Found hotel cards on current page";;
     scrape_cards 0 hotel_cards;;
     hotels_after <- len_data;;
     ret (hotels_after - hotels_before)%Z)
    (fun _ => log ERROR "Error scraping current page";; ret 0%Z).

(** [self.driver.execute_script("arguments[0].click();", next_button)]:
    the browser moves on to the next results page. *)
Definition click_next : M unit :=
  p <- get_page;; emit (EvClickNext p);;
  (fun st => (Ok tt, set_page (S (cur_page st)) st)).

(** [HotelScraper._go_to_next_page] *)
Definition next_selectors : list string :=
  [ "button[aria-label*='Next']";
    "a[aria-label*='Next']";
    "button[data-testid*='next']";
    "a[data-testid*='next']";
    "div[data-testid='pagination'] a:last-child" ].

Fixpoint try_next_selectors (sels : list string) : M bool :=
  match sels with
  | [] => log INFO "No next page button found";; ret false
  | sel :: rest =>
      try_except
        (wait_clickable sel;; click_next;; log INFO "Navigated to next page";; ret true)
        (fun e => match e with
                  | TimeoutException => try_next_selectors rest
                  | _ => raise e
                  end)
  end.

Definition go_to_next_page : M bool :=
  try_except (try_next_selectors next_selectors)
             (fun _ => log WARNING "Error navigating to next page";; ret false).

(** [self.wait.until(EC.presence_of_element_located(... property-card ...))] *)
Definition wait_cards : M unit :=
  p <- get_page;; emit (EvWaitCards p);;
  (fun st => lift (pg_wait (current st)) st).

(** [self.driver.get(url)]: shows the first results page. *)
Definition driver_get (url : string) : M unit :=
  lift (env_get E url);; (fun st => (Ok tt, set_page 0 st)).

(** One iteration of [for page in range(max_pages)]; [false] is [break]. *)
Definition loop_body (max_pages : Z) (page : nat) : M bool :=
  log INFO "Scraping page";;
  found <- try_except (wait_cards;; ret true)
             (fun e => match e with
                       | TimeoutException => log WARNING "No hotel cards found on page";; ret false
                       | _ => raise e
                       end);;
  if negb found then ret false else
  page_hotels <- scrape_current_page;;
  log INFO "Extracted hotels from page";;
  if (Z.of_nat page <? max_pages - 1)%Z then
    moved <- go_to_next_page;;
    if negb moved then (log INFO "No more pages available";; ret false) else ret true
  else ret true.

Fixpoint pages_loop (max_pages : Z) (page : nat) (n : nat) : M unit :=
  match n with
  | O => ret tt
  | S n' =>
      continue <- loop_body max_pages page;;
      if continue then pages_loop max_pages (S page) n' else ret tt
  end.

(** [pd.DataFrame(self.data)] with the [scraped_at] column; the
    [pd.to_numeric(..., errors='coerce').fillna(0)] of the price and rating
    columns leaves these float columns as they are. *)
Definition to_frame (d : list hotel) : frame :=
  map (fun h => {| row_hotel := h; scraped_at := env_now E |}) d.

(** [HotelScraper._create_dataframe] *)
Definition create_dataframe : M frame :=
  fun st => match data st with
            | [] => (log WARNING "No data collected to create DataFrame";; ret []) st
            | d => (log INFO "Created DataFrame";; ret (to_frame d)) st
            end.

(** The body of the [try] in [scrape_hotel_data]. *)
Definition scrape_body (url : string) (max_pages : Z) : M frame :=
  log INFO "Starting scraping";;
  driver_get url;;
  _ <- accept_cookies;;
  pages_loop max_pages 0 (Z.to_nat max_pages);;
  log INFO "Scraping completed";;
  create_dataframe.

(** [HotelScraper.scrape_hotel_data] *)
Definition scrape_hotel_data (url : string) (max_pages : Z) : M frame :=
  try_except (scrape_body url max_pages)
             (fun _ => log ERROR "Error during scraping";; ret []).

End Scraper.

(** ** What one card and one page contribute

    [field] is the value [_safe_extract_text] produces for a selector (or
    the exception it lets through); a card is faulty when one of the six
    lookups of [_extract_single_hotel] raises such an exception. *)
Section Summary.
Variable u : ucd.

Definition field (c : card) (sel : string) : res pystr :=
  match find_element c sel with
  | Ok t => Ok (py_strip u t)
  | Raise NoSuchElementException => Ok []
  | Raise e => Raise e
  end.

Definition faults (c : card) (sel : string) : bool :=
  match field c sel with Raise _ => true | Ok _ => false end.

Definition text_of (c : card) (sel : string) : pystr :=
  match field c sel with Ok t => t | Raise _ => [] end.

Definition card_selectors : list string :=
  [sel_title; sel_price; sel_rating; sel_location; sel_review_count; sel_distance].

Definition card_faults (c : card) : bool := existsb (faults c) card_selectors.

Definition card_hotel (c : card) : hotel :=
  {| hotel_name := text_of c sel_title;
     price := clean_price u (text_of c sel_price);
     rating := clean_rating u (text_of c sel_rating);
     location := text_of c sel_location;
     review_count := text_of c sel_review_count;
     distance := text_of c sel_distance |}.

Definition nonempty (s : pystr) : bool := match s with [] => false | _ => true end.

Definition card_kept (c : card) : bool :=
  negb (card_faults c) && nonempty (text_of c sel_title).

Definition page_records (cards : list card) : list hotel :=
  map card_hotel (filter card_kept cards).

Definition page_recs (r : res (list card)) : list hotel :=
  match r with Ok cards => page_records cards | Raise _ => [] end.

Definition card_warning : level * string := (WARNING, "Error extracting single hotel"%string).

(** The log lines [_scrape_current_page] writes. *)
Definition page_log (r : res (list card)) : list (level * string) :=
  match r with
  | Ok cards => (INFO, "Found hotel cards on current page"%string)
                  :: repeat card_warning (List.length (filter card_faults cards))
  | Raise _ => [(ERROR, "Error scraping current page"%string)]
  end.

(** The records page [p] of the browser contributes. *)
Definition recs_at (E : env) (p : nat) : list hotel := page_recs (pg_cards (env_page E p)).

(** Waits for property cards among browser actions. *)
Definition is_wait (ev : event) : bool :=
  match ev with EvWaitCards _ => true | EvClickNext _ => false end.
Definition count_waits (evs : list event) : nat := List.length (filter is_wait evs).

End Summary.

(** ** The normaliser as the specification words it

    [parsePrice]: strip every character that is not a decimal digit or a
    decimal point, parse the rest as a float, [0.0] on empty input or on a
    parse failure. *)
Definition parse_price_spec (u : ucd) (s : pystr) : pyfloat :=
  match s with
  | [] => PFin 0
  | _ =>
      let token := filter (fun c => is_dec u c || (c =? dot)%N) s in
      match py_float u token with Some f => f | None => PFin 0 end
  end.

Definition no_dec (u : ucd) (s : pystr) : Prop := forall c, In c s -> is_dec u c = false.
Definition all_dec (u : ucd) (s : pystr) : Prop := forall c, In c s -> is_dec u c = true.
Definition starts_dec (u : ucd) (s : pystr) : bool :=
  match s with c :: _ => is_dec u c | [] => false end.

Definition starts_with (p : pychar -> bool) (s : pystr) : bool :=
  match s with c :: _ => p c | [] => false end.

(** ** Concrete browser sessions *)

Definition search_url : string := "https://www.booking.com/searchresults.html?ss=Dublin"%string.
Definition sel_next : string := "a[aria-label*='Next']"%string.

Definition stale : exn := WebDriverException "stale element reference"%string.
Definition session_lost : exn := WebDriverException "invalid session id"%string.

(** A card that shows only a name; its other fields are absent. *)
Definition named_card (name : string) : card := [(sel_title, Ok (pys name))].

(** A named card whose distance element goes stale while it is read. *)
Definition card_stale_distance : card :=
  [(sel_title, Ok (pys "Hotel B")); (sel_distance, Raise stale)].

(** A results page with the given cards and a clickable next-page link. *)
Definition results_page (cards : list card) : page :=
  {| pg_wait := Ok tt; pg_cards := Ok cards; pg_clickable := [(sel_next, Ok tt)] |}.

(** A page of a browser whose session has died. *)
Definition dead_page : page :=
  {| pg_wait := Raise session_lost; pg_cards := Raise session_lost; pg_clickable := [] |}.

(** Every results page shows the same cards. *)
Definition env_pages (cards : list card) : env :=
  {| env_get := fun _ => Ok tt; env_page := fun _ => results_page cards; env_now := 0%Z |}.

(** The first page has one listing; the session dies after the click to page 2. *)
Definition env_lost_on_page2 : env :=
  {| env_get := fun _ => Ok tt;
     env_page := fun p => match p with
                          | O => results_page [named_card "Hotel A"]
                          | S _ => dead_page
                          end;
     env_now := 0%Z |}.

(** [driver.get] fails: the session is gone. *)
Definition env_no_session : env :=
  {| env_get := fun _ => Raise session_lost; env_page := fun _ => dead_page; env_now := 0%Z |}.

(** The first page has one listing; no property card ever appears on the
    pages after it. *)
Definition env_timeout_on_page2 : env :=
  {| env_get := fun _ => Ok tt;
     env_page := fun p => match p with
                          | O => results_page [named_card "Hotel A"]
                          | S _ => {| pg_wait := Raise TimeoutException; pg_cards := Ok [];
                                      pg_clickable := [] |}
                          end;
     env_now := 0%Z |}.

(** Every page has one listing and no next-page control. *)
Definition env_no_next : env :=
  {| env_get := fun _ => Ok tt;
     env_page := fun _ => {| pg_wait := Ok tt; pg_cards := Ok [named_card "Hotel A"];
                             pg_clickable := [] |};
     env_now := 0%Z |}.

(** The scraper after a first one-page run that collected one listing. *)
Definition first_run : St :=
  snd (scrape_hotel_data ucd_latin1 (env_pages [named_card "Hotel A"]) search_url 1 new_scraper).

(** ** Scanning for a clickable element, and the trace of a full run *)

(** The loops of [accept_cookies] and [_go_to_next_page] wait for each
    selector in turn; the first selector whose wait does not time out
    decides the outcome (a click, or the exception that ends the loop). *)
Fixpoint first_clickable (l : list (string * res unit)) (sels : list string) : res bool :=
  match sels with
  | [] => Ok false
  | sel :: rest =>
      match lookup_sel l sel TimeoutException with
      | Ok _ => Ok true
      | Raise TimeoutException => first_clickable l rest
      | Raise e => Raise e
      end
  end.

(** The browser actions of a visit of page [q] in a run of [n] pages when
    the cards appear and the next-page control is found: the wait for the
    cards, then the click unless [q] is the last page. *)
Definition visit_trace (n q : nat) : list event :=
  EvWaitCards q :: (if (S q <? n)%nat then [EvClickNext q] else []).

Definition run_trace (n p k : nat) : list event := flat_map (visit_trace n) (seq p k).

(** ** [save_to_csv], [close], the constructor and [main] *)

(** Errors outside the scraper's own code: a driver error, or an
    [OSError] of the file system. *)
Inductive sys_exn :=
| DriverError (e : exn)
| OSError (msg : string).

Inductive sres (A : Type) :=
| SOk (a : A)
| SRaise (e : sys_exn).
Arguments SOk {A} a.
Arguments SRaise {A} e.

(** What the operating system does: starting the browser in [setup_driver],
    [os.makedirs], [DataFrame.to_csv] on a path, [driver.quit()] (each
    [None] when it succeeds), and the time [pd.Timestamp.now()] gives in
    [save_to_csv]. *)
Record os_env := {
  os_setup : option sys_exn;
  os_makedirs : string -> option sys_exn;
  os_to_csv : string -> option sys_exn;
  os_quit : option sys_exn;
  os_now : Z
}.

(** The process: the scraper instance (with the shared logger), the CSV
    files written, newest first, and the number of [driver.quit()] calls.
    Console output ([print]) is not modelled: it neither raises nor changes
    anything the code reads. *)
Record Sys := {
  scraper : St;
  files : list (string * frame);
  quits : nat
}.

Definition set_scraper (st : St) (sy : Sys) : Sys :=
  {| scraper := st; files := files sy; quits := quits sy |}.
Definition set_files (fs : list (string * frame)) (sy : Sys) : Sys :=
  {| scraper := scraper sy; files := fs; quits := quits sy |}.
Definition set_quits (n : nat) (sy : Sys) : Sys :=
  {| scraper := scraper sy; files := files sy; quits := n |}.

Definition MS (A : Type) := Sys -> sres A * Sys.

Definition sret {A} (a : A) : MS A := fun sy => (SOk a, sy).
Definition sbind {A B} (m : MS A) (f : A -> MS B) : MS B :=
  fun sy => match m sy with
            | (SOk a, sy') => f a sy'
            | (SRaise e, sy') => (SRaise e, sy')
            end.
(** [try: m except Exception: h e] *)
Definition stry {A} (m : MS A) (h : sys_exn -> MS A) : MS A :=
  fun sy => match m sy with
            | (SRaise e, sy') => h e sy'
            | r => r
            end.
(** [try: m finally: f] *)
Definition sfinally {A} (m : MS A) (f : MS unit) : MS A :=
  fun sy => match m sy with
            | (r, sy1) => match f sy1 with
                          | (SOk _, sy2) => (r, sy2)
                          | (SRaise e, sy2) => (SRaise e, sy2)
                          end
            end.
(** A method of the scraper, run on the instance. *)
Definition on_scraper {A} (m : M A) : MS A :=
  fun sy => match m (scraper sy) with
            | (Ok a, st) => (SOk a, set_scraper st sy)
            | (Raise e, st) => (SRaise (DriverError e), set_scraper st sy)
            end.
Definition os_call (r : option sys_exn) : MS unit :=
  fun sy => match r with None => (SOk tt, sy) | Some e => (SRaise e, sy) end.
Definition write_file (path : string) (df : frame) : MS unit :=
  fun sy => (SOk tt, set_files ((path, df) :: files sy) sy).

(** The file [path] holds, if any (the newest write wins). *)
Definition read_file (fs : list (string * frame)) (path : string) : option frame :=
  match find (fun f => String.eqb (fst f) path) fs with
  | Some (_, df) => Some df
  | None => None
  end.

(** [os.path.join(a, b)] on POSIX: an absolute [b] replaces [a]. *)
Definition path_join (a b : string) : string :=
  if String.prefix "/" b then b
  else match a with
       | EmptyString => b
       | _ => match String.get (String.length a - 1) a with
              | Some "/"%char => a ++ b
              | _ => a ++ "/" ++ b
              end
       end.

(** The browser as [save_to_csv] sees it: [pd.Timestamp.now()] is [t]. *)
Definition at_time (E : env) (t : Z) : env :=
  {| env_get := env_get E; env_page := env_page E; env_now := t |}.

(** [HotelScraper.save_to_csv] *)
Definition save_to_csv (E : env) (O : os_env) (filename : string) : MS unit :=
  fun sy =>
    match data (scraper sy) with
    | [] => on_scraper (log WARNING "No data to save") sy
    | _ :: _ =>
        sbind (os_call (os_makedirs O "data")) (fun _ =>
        sbind (on_scraper (create_dataframe (at_time E (os_now O)))) (fun df =>
        sbind (os_call (os_to_csv O (path_join "data" filename))) (fun _ =>
        sbind (write_file (path_join "data" filename) df) (fun _ =>
        on_scraper (log INFO "Data saved"))))) sy
    end.

(** [HotelScraper.close], on an instance whose driver was set up. *)
Definition close (O : os_env) : MS unit :=
  fun sy =>
    let sy' := set_quits (S (quits sy)) sy in
    match os_quit O with
    | None => on_scraper (log INFO "WebDriver closed") sy'
    | Some e => (SRaise e, sy')
    end.

(** The instance [HotelScraper.__init__] builds once [setup_driver] has
    succeeded; the logger is shared, so earlier log lines stay. *)
Definition scraper_after_init (st : St) : St :=
  {| data := [];
     logs := logs st ++ [(INFO, "WebDriver setup completed"%string);
                         (INFO, "HotelScraper initialized successfully"%string)];
     events := events st;
     cur_page := 0 |}.

(** [HotelScraper.__init__] *)
Definition hotel_scraper_init (O : os_env) : MS unit :=
  fun sy =>
    match os_setup O with
    | Some e =>
        (SRaise e,
         set_scraper (set_logs (logs (scraper sy) ++ [(ERROR, "Failed to initialize WebDriver"%string)])
                               (scraper sy)) sy)
    | None => (SOk tt, set_scraper (scraper_after_init (scraper sy)) sy)
    end.

Definition SEARCH_URL : string := "https://www.booking.com/searchresults.html?ss=Ireland&ssne=Ireland&ssne_untouched=Ireland&efdco=1&label=gen173nr-1FCAEoggI46AdIM1gEaGyIAQGYAQm4ARfIAQzYAQHoAQH4AQuIAgGoAgO4ApCFjJwGwAIB0gIkYjVlN2JjY2MtZTIwOS00N2Y3LWIxY2QtZDI5Yjg2Y2M0YzJj2AIF4AIB&sid=8b3753ff1c70e6311d696a0f7c03cd08&aid=304142&lang=en-us&sb=1&src_elem=sb&src=searchresults&dest_id=37&dest_type=country&ac_position=0&ac_click_type=b&ac_langcode=en&ac_suggestion_list_length=5&search_selected=true&search_pageview_id=5b2e3c3b5abe00b8&ac_meta=GhA1YjJlM2MzYjVhYmUwMGI4IAAoATICZW46B0lyZWxhbmRAAEoAUAA%3D&checkin=2024-03-15&checkout=2024-03-16&group_adults=2&no_rooms=1&group_children=0"%string.

(** [main()]: the summary lines it prints are not modelled. *)
Definition main (u : ucd) (E : env) (O : os_env) : MS unit :=
  sbind (hotel_scraper_init O) (fun _ =>
  sfinally
    (stry
       (sbind (on_scraper (scrape_hotel_data u E SEARCH_URL 3)) (fun df =>
          match df with
          | [] => sret tt
          | _ :: _ => save_to_csv E O "hotels.csv"
          end))
       (fun _ => on_scraper (log ERROR "Scraping failed")))
    (close O)).

(** ** Proofs *)

Section CardProofs.
Variable u : ucd.

Lemma safe_extract_text_eq (c : card) (sel : string) (st : St) :
  safe_extract_text u c sel st = (field u c sel, st).
Proof.
  unfold safe_extract_text, try_except, bind, lift, field.
  destruct (find_element c sel) as [t | [ | | m]]; reflexivity.
Qed.

Ltac field_step sel :=
  rewrite safe_extract_text_eq;
  let Hf := fresh "Hf" in
  destruct (field u _ sel) eqn:Hf; cbn.

Lemma extract_single_hotel_eq (c : card) (st : St) :
  extract_single_hotel u c st =
  if card_faults u c
  then (Ok None, set_logs (logs st ++ [card_warning]) st)
  else (Ok (Some (card_hotel u c)), st).
Proof.
  unfold extract_single_hotel, card_faults, card_hotel, card_selectors, faults, text_of.
  cbn [existsb].
  cbv [try_except bind ret log].
  field_step sel_title; [| reflexivity].
  field_step sel_price; [| rewrite ?orb_true_r; reflexivity].
  field_step sel_rating; [| rewrite ?orb_true_r; reflexivity].
  field_step sel_location; [| rewrite ?orb_true_r; reflexivity].
  field_step sel_review_count; [| rewrite ?orb_true_r; reflexivity].
  field_step sel_distance; [| rewrite ?orb_true_r; reflexivity].
  reflexivity.
Qed.

Lemma scrape_cards_eq (cards : list card) : forall i st,
  fst (scrape_cards u i cards st) = Ok tt /\
  data (snd (scrape_cards u i cards st)) = data st ++ page_records u cards /\
  logs (snd (scrape_cards u i cards st)) =
    logs st ++ repeat card_warning (List.length (filter (card_faults u) cards)) /\
  events (snd (scrape_cards u i cards st)) = events st /\
  cur_page (snd (scrape_cards u i cards st)) = cur_page st.
Proof.
  induction cards as [| c cs IH]; intros i st.
  - cbn. rewrite !app_nil_r. repeat split.
  - cbn [scrape_cards]. cbv [try_except bind]. rewrite extract_single_hotel_eq.
    unfold page_records. cbn [filter]. unfold card_kept.
    destruct (card_faults u c) eqn:F; cbn [negb andb].
    + cbn. destruct (IH (S i) (set_logs (logs st ++ [card_warning]) st))
        as (H1 & H2 & H3 & H4 & H5).
      cbn in H2, H3, H4, H5. rewrite H1, H2, H3, H4, H5.
      rewrite <- app_assoc. repeat split.
    + cbv [ret]. change (hotel_name (card_hotel u c)) with (text_of u c sel_title).
      destruct (text_of u c sel_title) eqn:T; cbv [append_data].
      * destruct (IH (S i) st) as (H1 & H2 & H3 & H4 & H5).
        rewrite H1, H2, H3, H4, H5. repeat split.
      * destruct (IH (S i) (set_data (data st ++ [card_hotel u c]) st))
          as (H1 & H2 & H3 & H4 & H5).
        cbn in H2, H3, H4, H5. rewrite H1, H2, H3, H4, H5.
        rewrite <- app_assoc. repeat split.
Qed.

End CardProofs.

Section PageProofs.
Variable u : ucd.
Variable E : env.

Lemma scrape_current_page_eq (st : St) :
  fst (scrape_current_page u E st) =
    Ok (Z.of_nat (List.length (page_recs u (pg_cards (current E st))))) /\
  data (snd (scrape_current_page u E st)) = data st ++ page_recs u (pg_cards (current E st)) /\
  logs (snd (scrape_current_page u E st)) = logs st ++ page_log u (pg_cards (current E st)) /\
  events (snd (scrape_current_page u E st)) = events st /\
  cur_page (snd (scrape_current_page u E st)) = cur_page st.
Proof.
  unfold scrape_current_page.
  cbv [bind len_data try_except find_cards].
  destruct (pg_cards (current E st)) as [cards | e] eqn:P; cbn [lift page_recs page_log].
  - cbv [ret log].
    set (st1 := set_logs _ st).
    destruct (scrape_cards_eq u cards 0 st1) as (H1 & H2 & H3 & H4 & H5).
    destruct (scrape_cards u 0 cards st1) as [r st2]. cbn in H1, H2, H3, H4, H5 |- *.
    subst r. rewrite ?H2, ?H3, ?H4, ?H5. cbn.
    repeat split; rewrite ?H2, ?H3, ?H4, ?H5; try reflexivity;
      try (rewrite <- app_assoc; reflexivity).
    rewrite length_app, Nat2Z.inj_add. f_equal. lia.
  - cbv [raise log ret]. cbn. repeat split.
    rewrite app_nil_r; reflexivity.
Qed.

Lemma try_next_selectors_eq (sels : list string) : forall st,
  data (snd (try_next_selectors E sels st)) = data st /\
  ((fst (try_next_selectors E sels st) = Ok true /\
    events (snd (try_next_selectors E sels st)) = events st ++ [EvClickNext (cur_page st)] /\
    cur_page (snd (try_next_selectors E sels st)) = S (cur_page st)) \/
   (fst (try_next_selectors E sels st) <> Ok true /\
    events (snd (try_next_selectors E sels st)) = events st /\
    cur_page (snd (try_next_selectors E sels st)) = cur_page st)).
Proof.
  induction sels as [| sel rest IH]; intros st.
  - cbn. split; [reflexivity |]. right. repeat split. discriminate.
  - cbn [try_next_selectors]. cbv [try_except bind wait_clickable].
    destruct (lookup_sel (pg_clickable (current E st)) sel TimeoutException)
      as [[] | e]; cbn.
    + split; [reflexivity |]. left. repeat split.
    + destruct e; cbn; try apply IH;
        (split; [reflexivity | right; repeat split; discriminate]).
Qed.

Lemma go_to_next_page_eq (st : St) :
  exists b, fst (go_to_next_page E st) = Ok b /\
  data (snd (go_to_next_page E st)) = data st /\
  events (snd (go_to_next_page E st)) =
    events st ++ (if b then [EvClickNext (cur_page st)] else []) /\
  cur_page (snd (go_to_next_page E st)) = (if b then S (cur_page st) else cur_page st).
Proof.
  unfold go_to_next_page, try_except.
  destruct (try_next_selectors_eq next_selectors st) as [Hd [(H1 & H2 & H3) | (H1 & H2 & H3)]];
    destruct (try_next_selectors E next_selectors st) as [r st'] eqn:R;
    rewrite ?R in *; cbn [fst snd] in *; subst.
  - exists true. cbn [fst snd]. rewrite Hd, H2, H3. repeat split.
  - destruct r as [[] | e]; cbn [fst snd].
    + exists true. congruence.
    + exists false. cbn [fst snd]. rewrite Hd, H2, H3, app_nil_r. repeat split.
    + exists false. cbn. rewrite Hd, H2, H3, app_nil_r. repeat split.
Qed.

Lemma try_cookie_selectors_frame (sels : list string) : forall st,
  data (snd (try_cookie_selectors E sels st)) = data st /\
  events (snd (try_cookie_selectors E sels st)) = events st /\
  cur_page (snd (try_cookie_selectors E sels st)) = cur_page st.
Proof.
  induction sels as [| sel rest IH]; intros st.
  - cbn. repeat split.
  - cbn [try_cookie_selectors]. cbv [try_except bind wait_clickable].
    destruct (lookup_sel (pg_clickable (current E st)) sel TimeoutException)
      as [[] | e]; cbn.
    + repeat split.
    + destruct e; cbn; try apply IH; repeat split.
Qed.

Lemma accept_cookies_frame (st : St) :
  (exists b, fst (accept_cookies E st) = Ok b) /\
  data (snd (accept_cookies E st)) = data st /\
  events (snd (accept_cookies E st)) = events st /\
  cur_page (snd (accept_cookies E st)) = cur_page st.
Proof.
  unfold accept_cookies, try_except.
  destruct (try_cookie_selectors_frame cookie_selectors st) as (H1 & H2 & H3).
  destruct (try_cookie_selectors E cookie_selectors st) as [[b | e] st'] eqn:R;
    rewrite ?R in *; cbn [fst snd] in *; subst; repeat split; eauto;
    cbv [bind log ret]; cbn; eauto.
Qed.

Lemma loop_body_eq (mp : Z) (p : nat) (st : St) :
  cur_page st = p ->
  exists new,
    events (snd (loop_body u E mp p st)) = events st ++ EvWaitCards p :: new /\
    (forall q, In (EvClickNext q) new -> q = p /\ (Z.of_nat p < mp - 1)%Z) /\
    count_waits new = 0%nat /\
    (data (snd (loop_body u E mp p st)) = data st \/
     data (snd (loop_body u E mp p st)) = data st ++ recs_at u E p) /\
    (fst (loop_body u E mp p st) = Ok true ->
     data (snd (loop_body u E mp p st)) = data st ++ recs_at u E p /\
     (cur_page (snd (loop_body u E mp p st)) = S p \/
      ((mp - 1 <= Z.of_nat p)%Z /\ cur_page (snd (loop_body u E mp p st)) = p))).
Proof.
  intros Hp. subst p.
  unfold loop_body.
  cbv [bind log try_except wait_cards get_page emit current]. cbn -[scrape_current_page go_to_next_page].
  destruct (pg_wait (env_page E (cur_page st))) as [[] | e] eqn:W; cbn -[scrape_current_page go_to_next_page].
  - match goal with |- context [scrape_current_page u E ?s] =>
      destruct (scrape_current_page_eq s) as (C1 & C2 & C3 & C4 & C5);
      destruct (scrape_current_page u E s) as [r4 st4] eqn:R4
    end.
    cbn [fst snd] in *. subst r4.
    change (current E ?s) with (env_page E (cur_page s)) in C2.
    cbn in C2, C4, C5. unfold recs_at.
    destruct (Z.of_nat (cur_page st) <? mp - 1)%Z eqn:L;
      cbn -[scrape_current_page go_to_next_page].
    + apply Z.ltb_lt in L.
      match goal with |- context [go_to_next_page E ?s] =>
        destruct (go_to_next_page_eq s) as (b & G1 & G2 & G3 & G4);
        destruct (go_to_next_page E s) as [r5 st5] eqn:R5
      end.
      cbn [fst snd] in *. subst r5. cbn in G2, G3, G4.
      rewrite C5 in G3, G4. rewrite C4 in G3. rewrite C2 in G2.
      destruct b; cbn -[scrape_current_page go_to_next_page].
      * exists [EvClickNext (cur_page st)].
        rewrite G3, <- app_assoc. refine (conj _ (conj _ (conj _ (conj _ _)))).
        -- reflexivity.
        -- intros q [Hq | []]. inversion Hq. split; [reflexivity | lia].
        -- reflexivity.
        -- right. exact G2.
        -- intros _. split; [exact G2 | left; exact G4].
      * exists []. rewrite G3, app_nil_r. refine (conj _ (conj _ (conj _ (conj _ _)))).
        -- reflexivity.
        -- intros q [].
        -- reflexivity.
        -- right. exact G2.
        -- discriminate.
    + apply Z.ltb_ge in L.
      exists []. rewrite C4. refine (conj _ (conj _ (conj _ (conj _ _)))).
      * reflexivity.
      * intros q [].
      * reflexivity.
      * right. exact C2.
      * intros _. split; [exact C2 | right; split; [lia | exact C5]].
  - destruct e; cbn -[scrape_current_page go_to_next_page]; exists [];
      refine (conj _ (conj _ (conj _ (conj _ _))));
      solve [reflexivity | intros q [] | left; reflexivity | discriminate].
Qed.

Lemma count_waits_app (a b : list event) :
  count_waits (a ++ b) = (count_waits a + count_waits b)%nat.
Proof. unfold count_waits. rewrite filter_app, length_app. reflexivity. Qed.

Lemma pages_loop_eq (mp : Z) : forall n p st,
  cur_page st = p -> (p + n <= Z.to_nat mp)%nat ->
  exists k new, (k <= n)%nat /\
    data (snd (pages_loop u E mp p n st)) = data st ++ List.concat (map (recs_at u E) (seq p k)) /\
    events (snd (pages_loop u E mp p n st)) = events st ++ new /\
    (count_waits new <= n)%nat /\
    (forall q, In (EvClickNext q) new -> (Z.of_nat q < mp - 1)%Z).
Proof.
  induction n as [| n IH]; intros p st Hp Hn.
  - exists 0%nat, []. cbn. rewrite !app_nil_r.
    refine (conj _ (conj _ (conj _ (conj _ _)))); auto. intros q [].
  - destruct (loop_body_eq mp p st Hp) as (new1 & B1 & B2 & B3 & B4 & B5).
    cbn [pages_loop]. unfold bind.
    destruct (loop_body u E mp p st) as [[[|] | e] st1] eqn:R; cbn [fst snd] in *.
    + destruct (B5 eq_refl) as [D [Hc | [Hle Hc]]].
      * destruct (IH (S p) st1 Hc) as (k & new2 & K1 & K2 & K3 & K4 & K5).
        { lia. }
        exists (S k), (EvWaitCards p :: new1 ++ new2).
        refine (conj _ (conj _ (conj _ (conj _ _)))).
        -- lia.
        -- rewrite K2, D. cbn. rewrite app_assoc. reflexivity.
        -- rewrite K3, B1, <- app_assoc. reflexivity.
        -- change (S (count_waits (new1 ++ new2)) <= S n)%nat.
           rewrite count_waits_app, B3. cbn. lia.
        -- intros q Hq. destruct Hq as [Hq | Hq]; [discriminate |].
           apply in_app_or in Hq. destruct Hq as [Hq | Hq].
           ++ apply B2 in Hq. lia.
           ++ apply K5. exact Hq.
      * assert (n = 0%nat) by lia. subst n. cbn.
        exists 1%nat, (EvWaitCards p :: new1).
        refine (conj _ (conj _ (conj _ (conj _ _)))).
        -- lia.
        -- rewrite D. cbn. rewrite app_nil_r. reflexivity.
        -- exact B1.
        -- cbn. unfold count_waits in B3. lia.
        -- intros q [Hq | Hq]; [discriminate | apply B2 in Hq; lia].
    + cbn. destruct B4 as [D | D];
        [exists 0%nat | exists 1%nat]; exists (EvWaitCards p :: new1);
        (refine (conj _ (conj _ (conj _ (conj _ _))));
         [ lia
         | rewrite D; cbn; rewrite ?app_nil_r; reflexivity
         | exact B1
         | cbn; unfold count_waits in B3; lia
         | intros q [Hq | Hq]; [discriminate | apply B2 in Hq; lia] ]).
    + cbn. destruct B4 as [D | D];
        [exists 0%nat | exists 1%nat]; exists (EvWaitCards p :: new1);
        (refine (conj _ (conj _ (conj _ (conj _ _))));
         [ lia
         | rewrite D; cbn; rewrite ?app_nil_r; reflexivity
         | exact B1
         | cbn; unfold count_waits in B3; lia
         | intros q [Hq | Hq]; [discriminate | apply B2 in Hq; lia] ]).
Qed.

Lemma scrape_hotel_data_body (url : string) (mp : Z) (st : St) :
  data (snd (scrape_hotel_data u E url mp st)) = data (snd (scrape_body u E url mp st)) /\
  events (snd (scrape_hotel_data u E url mp st)) = events (snd (scrape_body u E url mp st)) /\
  (forall f, fst (scrape_body u E url mp st) = Ok f -> fst (scrape_hotel_data u E url mp st) = Ok f) /\
  (forall e, fst (scrape_body u E url mp st) = Raise e -> fst (scrape_hotel_data u E url mp st) = Ok []).
Proof.
  unfold scrape_hotel_data, try_except.
  destruct (scrape_body u E url mp st) as [[f | e] st'].
  - cbn. refine (conj eq_refl (conj eq_refl (conj _ _))); [auto | discriminate].
  - cbn. refine (conj eq_refl (conj eq_refl (conj _ _))); [discriminate | auto].
Qed.

Lemma create_dataframe_eq (st : St) :
  fst (create_dataframe E st) = Ok (to_frame E (data st)) /\
  data (snd (create_dataframe E st)) = data st /\
  events (snd (create_dataframe E st)) = events st.
Proof. unfold create_dataframe. destruct (data st) eqn:D; cbn; rewrite ?D; auto. Qed.

Lemma scrape_body_eq (url : string) (mp : Z) (st : St) :
  exists k new, (k <= Z.to_nat mp)%nat /\
    data (snd (scrape_body u E url mp st)) =
      data st ++ List.concat (map (recs_at u E) (seq 0 k)) /\
    events (snd (scrape_body u E url mp st)) = events st ++ new /\
    (count_waits new <= Z.to_nat mp)%nat /\
    (forall q, In (EvClickNext q) new -> (Z.of_nat q < mp - 1)%Z) /\
    (fst (scrape_body u E url mp st) = Ok (to_frame E (data (snd (scrape_body u E url mp st)))) \/
     exists e, fst (scrape_body u E url mp st) = Raise e).
Proof.
  unfold scrape_body.
  cbv [bind log driver_get lift].
  destruct (env_get E url) as [[] | e]; cbv [ret raise].
  - set (st1 := set_page 0 _).
    destruct (accept_cookies_frame st1) as [[b Hb] [A2 [A3 A4]]].
    destruct (accept_cookies E st1) as [r2 st2] eqn:R2. cbn [fst snd] in *. subst r2.
    assert (Hp : cur_page st2 = 0%nat) by (rewrite A4; reflexivity).
    destruct (pages_loop_eq mp (Z.to_nat mp) 0 st2 Hp ltac:(lia))
      as (k & new & K1 & K2 & K3 & K4 & K5).
    destruct (pages_loop u E mp 0 (Z.to_nat mp) st2) as [[[] | e] st3] eqn:R3;
      cbn [fst snd] in *.
    + exists k, new. set (st4 := set_logs _ st3).
      destruct (create_dataframe_eq st4) as (F1 & F2 & F3).
      rewrite F1, F2, F3. unfold st4. cbn [data events set_logs].
      rewrite K2, K3, A2, A3. cbn [data events set_logs set_page].
      refine (conj K1 (conj eq_refl (conj eq_refl (conj K4 (conj K5 _))))).
      left. reflexivity.
    + exists k, new. rewrite K2, K3, A2, A3. cbn.
      refine (conj K1 (conj eq_refl (conj eq_refl (conj K4 (conj K5 _))))).
      right. exists e. reflexivity.
  - exists 0%nat, []. cbn. rewrite !app_nil_r.
    refine (conj _ (conj eq_refl (conj eq_refl (conj _ (conj _ _))))); try lia.
    right. exists e. reflexivity.
Qed.

End PageProofs.

Section NormalizerProofs.
Variable u : ucd.







Lemma split_aux_nospace (s : pystr) : forall cur,
  (forall c, In c s -> uc_isspace u c = false) ->
  split_aux u s cur = match cur, s with [], [] => [] | _, _ => [rev cur ++ s] end.
Proof.
  induction s as [| c s IH]; intros cur Hs; cbn.
  - destruct cur; [reflexivity | rewrite app_nil_r; reflexivity].
  - rewrite (Hs c (or_introl eq_refl)).
    rewrite IH by (intros x Hx; apply Hs; right; exact Hx).
    cbn. rewrite <- app_assoc. destruct cur; reflexivity.
Qed.

Lemma clean_price_refines (s : pystr)
  (Hdec : forall c, In c s -> is_dec u c = true -> uc_isdigit u c = true)
  (Hsp : forall c, In c s -> uc_isdigit u c = true -> uc_isspace u c = false)
  (Hdot : uc_isspace u dot = false)
  (Hin : forall c, In c s -> uc_isdigit u c = true -> is_dec u c = true) :
  clean_price u s = parse_price_spec u s.
Proof.
  unfold clean_price, parse_price_spec.
  destruct s as [| x s']; [reflexivity |].
  set (s := x :: s') in *.
  assert (Hf : filter (fun c => uc_isdigit u c || (c =? dot)%N) s =
               filter (fun c => is_dec u c || (c =? dot)%N) s).
  { apply filter_ext_in. intros c Hc.
    destruct (uc_isdigit u c) eqn:D.
    - rewrite (Hin c Hc D). reflexivity.
    - destruct (is_dec u c) eqn:D'; [rewrite (Hdec c Hc D') in D; discriminate | reflexivity]. }
  unfold py_split. rewrite split_aux_nospace.
  - rewrite Hf.
    destruct (filter (fun c => is_dec u c || (c =? dot)%N) s) as [| y ys]; [reflexivity |].
    reflexivity.
  - intros c Hc. apply filter_In in Hc. destruct Hc as [Hs Hc].
    apply orb_true_iff in Hc. destruct Hc as [Hc | Hc].
    + apply Hsp; assumption.
    + apply N.eqb_eq in Hc. subst c. exact Hdot.
Qed.

Lemma plus_cons (p : pychar -> bool) (k : pystr -> option pystr) (x : pychar) (xs : pystr) :
  re_match (RPlus p) (x :: xs) k =
  if p x then match re_match (RPlus p) xs k with Some r => Some r | None => k xs end
  else None.
Proof. reflexivity. Qed.

Lemma re_alt (r1 r2 : regex) (s : pystr) (k : pystr -> option pystr) :
  re_match (RAlt r1 r2) s k =
  match re_match r1 s k with Some r => Some r | None => re_match r2 s k end.
Proof. reflexivity. Qed.

Lemma re_seq (r1 r2 : regex) (s : pystr) (k : pystr -> option pystr) :
  re_match (RSeq r1 r2) s k = re_match r1 s (fun s' => re_match r2 s' k).
Proof. reflexivity. Qed.

Lemma plus_stop (p : pychar -> bool) (k : pystr -> option pystr) (s : pystr) :
  starts_with p s = false -> re_match (RPlus p) s k = None.
Proof. destruct s as [| c s]; cbn; [reflexivity |]. intros H; rewrite H; reflexivity. Qed.

(** Greedy [p+]: it ends at the end of the maximal run of [p] characters,
    unless the continuation fails there and could succeed further left. *)
Lemma plus_longest (p : pychar -> bool) (k : pystr -> option pystr) (d rest : pystr) :
  (forall c, In c d -> p c = true) -> d <> [] -> starts_with p rest = false ->
  (k rest <> None \/ forall c s', p c = true -> k (c :: s') = None) ->
  re_match (RPlus p) (d ++ rest) k = k rest.
Proof.
  intros Hd Hne Hr Hk.
  induction d as [| x d IH]; [congruence |].
  cbn [app]. rewrite plus_cons, (Hd x (or_introl eq_refl)).
  destruct d as [| y d'].
  - cbn [app]. rewrite plus_stop by exact Hr. reflexivity.
  - rewrite IH by (try (intros c Hc; apply Hd; right; exact Hc); discriminate).
    destruct (k rest) as [r |] eqn:K; [reflexivity |].
    destruct Hk as [Hk | Hk]; [congruence |].
    cbn [app]. apply Hk. apply Hd. right. left. reflexivity.
Qed.

Lemma is_dec_not_dot (Hdot : is_dec u dot = false) (c : pychar) :
  is_dec u c = true -> (c =? dot)%N = false.
Proof.
  intros H. destruct (c =? dot)%N eqn:E; [| reflexivity].
  apply N.eqb_eq in E. subst c. congruence.
Qed.

Lemma rating_re_nodec (s : pystr) (k : pystr -> option pystr) :
  starts_dec u s = false -> re_match (rating_re u) s k = None.
Proof.
  intros H. unfold rating_re. rewrite re_alt, re_seq.
  rewrite !plus_stop by exact H. reflexivity.
Qed.

Lemma re_search_skip (pre s : pystr) :
  no_dec u pre -> re_search (rating_re u) (pre ++ s) = re_search (rating_re u) s.
Proof.
  induction pre as [| c pre IH]; intros H; [reflexivity |].
  cbn [app re_search]. rewrite rating_re_nodec.
  - apply IH. intros x Hx. apply H. right. exact Hx.
  - cbn. apply H. left. reflexivity.
Qed.

Lemma firstn_prefix (a b : pystr) :
  firstn (List.length (a ++ b) - List.length b) (a ++ b) = a.
Proof.
  rewrite length_app. replace (List.length a + List.length b - List.length b)%nat
    with (List.length a) by lia.
  rewrite firstn_app, firstn_all, Nat.sub_diag. cbn. apply app_nil_r.
Qed.

Lemma span_dec_app (d rest : pystr) :
  all_dec u d -> starts_dec u rest = false -> span_dec u (d ++ rest) = (d, rest).
Proof.
  intros Hd Hr. induction d as [| x d IH]; cbn [span_dec app starts_dec fst snd].
  - destruct rest as [| c rest]; [reflexivity |]. cbn [starts_dec span_dec] in Hr |- *.
    rewrite Hr. reflexivity.
  - rewrite (Hd x (or_introl eq_refl)).
    rewrite IH by (intros c Hc; apply Hd; right; exact Hc). reflexivity.
Qed.

Lemma span_dec_split (s : pystr) :
  s = fst (span_dec u s) ++ snd (span_dec u s) /\
  all_dec u (fst (span_dec u s)) /\ starts_dec u (snd (span_dec u s)) = false.
Proof.
  induction s as [| c s IH]; cbn [span_dec app starts_dec fst snd].
  - split; [reflexivity | split; [intros x [] | reflexivity]].
  - destruct (is_dec u c) eqn:D.
    + destruct (span_dec u s) as [d r]. cbn [fst snd] in IH |- *.
      destruct IH as (H1 & H2 & H3).
      split; [rewrite H1 at 1; reflexivity |].
      split; [| exact H3]. intros x [Hx | Hx]; [subst; exact D | apply H2; exact Hx].
    + cbn [fst snd starts_dec]. split; [reflexivity | split; [intros x [] | exact D]].
Qed.

Lemma re_char (c0 c : pychar) (s : pystr) (k : pystr -> option pystr) :
  re_match (RChar c0) (c :: s) k = if (c =? c0)%N then k s else None.
Proof. reflexivity. Qed.

Lemma re_search_unfold (r : regex) (s : pystr) :
  re_search r s =
  match re_match r s (fun rest => Some rest) with
  | Some rest => Some (firstn (List.length s - List.length rest) s)
  | None => match s with [] => None | _ :: s' => re_search r s' end
  end.
Proof. destruct s; reflexivity. Qed.

Lemma clean_rating_search (s : pystr) :
  clean_rating u s =
  match re_search (rating_re u) s with
  | Some n0 => match py_float u n0 with Some f => f | None => PFin 0 end
  | None => PFin 0
  end.
Proof. destruct s; reflexivity. Qed.

Lemma clean_rating_none (s : pystr) : no_dec u s -> clean_rating u s = PFin 0.
Proof.
  intros H. rewrite clean_rating_search.
  rewrite <- (app_nil_r s), re_search_skip by exact H. reflexivity.
Qed.

Lemma after_dot_match (d2 post : pystr) :
  d2 <> [] -> all_dec u d2 -> starts_dec u post = false ->
  re_match (RSeq (RChar dot) (RPlus (is_dec u))) (dot :: d2 ++ post) (fun rest => Some rest)
  = Some post.
Proof.
  intros H1 H2 H3. rewrite re_seq, re_char, N.eqb_refl.
  apply plus_longest; auto. left. discriminate.
Qed.

Lemma after_digit_fails (Hdot : is_dec u dot = false) (c : pychar) (s' : pystr) :
  is_dec u c = true ->
  re_match (RSeq (RChar dot) (RPlus (is_dec u))) (c :: s') (fun rest => Some rest) = None.
Proof.
  intros H. rewrite re_seq, re_char, (is_dec_not_dot Hdot c H). reflexivity.
Qed.

Lemma py_float_decimal (d1 d2 : pystr) :
  is_dec u dot = false -> d1 <> [] -> all_dec u d1 -> d2 <> [] -> all_dec u d2 ->
  py_float u (d1 ++ dot :: d2) = Some (to_pyfloat (dec_value u d1 d2)).
Proof.
  intros Hdot H1 H2 H3 H4. unfold py_float.
  rewrite span_dec_app by (auto; exact Hdot).
  rewrite N.eqb_refl.
  rewrite <- (app_nil_r d2) at 1. rewrite span_dec_app by auto.
  destruct d1 as [| x d1]; [congruence |]. destruct d2 as [| y d2]; [congruence |].
  reflexivity.
Qed.

Lemma py_float_integer (d : pystr) :
  d <> [] -> all_dec u d -> py_float u d = Some (to_pyfloat (dec_value u d [])).
Proof.
  intros H1 H2. unfold py_float.
  rewrite <- (app_nil_r d) at 1. rewrite span_dec_app by auto.
  destruct d as [| x d]; [congruence |]. reflexivity.
Qed.

Lemma clean_rating_decimal (Hdot : is_dec u dot = false) (pre d1 d2 post : pystr) :
  no_dec u pre -> d1 <> [] -> all_dec u d1 -> d2 <> [] -> all_dec u d2 ->
  starts_dec u post = false ->
  clean_rating u (pre ++ d1 ++ dot :: d2 ++ post) = to_pyfloat (dec_value u d1 d2).
Proof.
  intros Hpre H1 H2 H3 H4 Hpost.
  assert (M : re_match (rating_re u) (d1 ++ dot :: d2 ++ post) (fun rest => Some rest)
              = Some post).
  { unfold rating_re. rewrite re_alt, re_seq.
    rewrite plus_longest; auto.
    - rewrite after_dot_match; auto.
    - rewrite after_dot_match; auto. left. discriminate. }
  rewrite clean_rating_search, re_search_skip by exact Hpre.
  rewrite re_search_unfold, M.
  replace (d1 ++ dot :: d2 ++ post) with ((d1 ++ dot :: d2) ++ post)
    by (rewrite <- app_assoc; reflexivity).
  rewrite firstn_prefix, py_float_decimal; auto.
Qed.

Lemma clean_rating_integer (Hdot : is_dec u dot = false) (pre d post : pystr) :
  no_dec u pre -> d <> [] -> all_dec u d -> starts_dec u post = false ->
  ~ (exists d2 rest, post = dot :: d2 ++ rest /\ d2 <> [] /\ all_dec u d2) ->
  clean_rating u (pre ++ d ++ post) = to_pyfloat (dec_value u d []).
Proof.
  intros Hpre H1 H2 Hpost Hnot.
  assert (K1 : re_match (RSeq (RChar dot) (RPlus (is_dec u))) post (fun rest => Some rest)
               = None).
  { destruct post as [| c post']; [reflexivity |].
    rewrite re_seq, re_char.
    destruct (c =? dot)%N eqn:C; [| reflexivity].
    apply N.eqb_eq in C. subst c.
    destruct (span_dec_split post') as (S1 & S2 & S3).
    destruct (fst (span_dec u post')) as [| a b] eqn:F.
    - rewrite S1. cbn [app]. apply plus_stop. exact S3.
    - exfalso. apply Hnot. exists (a :: b), (snd (span_dec u post')).
      split; [rewrite S1 at 1; reflexivity | split; [discriminate | exact S2]]. }
  assert (M : re_match (rating_re u) (d ++ post) (fun rest => Some rest) = Some post).
  { unfold rating_re. rewrite re_alt, re_seq.
    rewrite plus_longest; auto.
    - rewrite K1. apply plus_longest; auto. left. discriminate.
    - right. intros c s' Hc. apply after_digit_fails; auto. }
  rewrite clean_rating_search, re_search_skip by exact Hpre.
  rewrite re_search_unfold, M, firstn_prefix, py_float_integer; auto.
Qed.

End NormalizerProofs.

Section RunProofs.
Variable u : ucd.
Variable E : env.

(** One call of [scrape_hotel_data]: the pages visited add their records to
    [self.data] in page order; the call returns the frame of the whole of
    [self.data], or the empty frame when an exception escaped the body. *)
Lemma scrape_hotel_data_eq (url : string) (mp : Z) (st : St) :
  exists k new, (k <= Z.to_nat mp)%nat /\
    data (snd (scrape_hotel_data u E url mp st)) =
      data st ++ List.concat (map (recs_at u E) (seq 0 k)) /\
    events (snd (scrape_hotel_data u E url mp st)) = events st ++ new /\
    (count_waits new <= Z.to_nat mp)%nat /\
    (forall q, In (EvClickNext q) new -> (Z.of_nat q < mp - 1)%Z) /\
    (fst (scrape_hotel_data u E url mp st) =
       Ok (to_frame E (data (snd (scrape_hotel_data u E url mp st)))) \/
     (fst (scrape_hotel_data u E url mp st) = Ok [] /\
      exists e, fst (scrape_body u E url mp st) = Raise e)).
Proof.
  destruct (scrape_body_eq u E url mp st) as (k & new & K1 & K2 & K3 & K4 & K5 & R).
  destruct (scrape_hotel_data_body u E url mp st) as (D & V & Hok & Herr).
  exists k, new. rewrite D, V.
  refine (conj K1 (conj K2 (conj K3 (conj K4 (conj K5 _))))).
  destruct R as [R | [e R]].
  - left. rewrite (Hok _ R). reflexivity.
  - right. split; [exact (Herr e R) | exists e; exact R].
Qed.

End RunProofs.

Lemma filter_length_split {A} (f : A -> bool) (l : list A) :
  (List.length (filter f l) + List.length (filter (fun x => negb (f x)) l))%nat = List.length l.
Proof.
  induction l as [| x l IH]; [reflexivity |].
  cbn. destruct (f x); cbn; lia.
Qed.


(** ** The claims *)

(** Claim C1 (amended): when an exception escapes the body of
    [scrape_hotel_data] (a lost session, say), the call returns the empty
    DataFrame; the listings appended before the fault are not returned,
    they only stay behind in [self.data]. *)
Theorem scrape_fault_returns_empty (u : ucd) (E : env) (url : string) (mp : Z) (st : St)
  (e : exn) :
  fst (scrape_body u E url mp st) = Raise e ->
  fst (scrape_hotel_data u E url mp st) = Ok [] /\
  exists k, (k <= Z.to_nat mp)%nat /\
    data (snd (scrape_hotel_data u E url mp st)) =
      data st ++ List.concat (map (recs_at u E) (seq 0 k)).
Proof.
  intros H.
  destruct (scrape_hotel_data_body u E url mp st) as (D & _ & _ & Herr).
  destruct (scrape_body_eq u E url mp st) as (k & new & K1 & K2 & _).
  split; [exact (Herr e H) |].
  exists k. rewrite D. split; [exact K1 | exact K2].
Qed.

(** Claim C1, counterexample: one listing is appended on page 1, the
    session dies on page 2, and the run hands back an empty dataset. *)
Lemma partial_results_discarded :
  fst (scrape_hotel_data ucd_latin1 env_lost_on_page2 search_url 2 new_scraper) = Ok [] /\
  List.length (data (snd (scrape_hotel_data ucd_latin1 env_lost_on_page2 search_url 2 new_scraper)))
    = 1%nat.
Proof. split; vm_compute; reflexivity. Qed.

Lemma scrape_fault_returns_empty_witness :
  fst (scrape_body ucd_latin1 env_lost_on_page2 search_url 2 new_scraper) = Raise session_lost /\
  (fst (scrape_hotel_data ucd_latin1 env_lost_on_page2 search_url 2 new_scraper) = Ok [] /\
   exists k, (k <= Z.to_nat 2)%nat /\
     data (snd (scrape_hotel_data ucd_latin1 env_lost_on_page2 search_url 2 new_scraper)) =
       data new_scraper ++ List.concat (map (recs_at ucd_latin1 env_lost_on_page2) (seq 0 k))).
Proof.
  split; [vm_compute; reflexivity |].
  apply (scrape_fault_returns_empty ucd_latin1 env_lost_on_page2 search_url 2 new_scraper
           session_lost).
  vm_compute. reflexivity.
Defined.

(** Claim C2 (amended): [_safe_extract_text] looks up one selector: it
    returns the stripped text of the element it finds, the empty string when
    the driver raises [NoSuchElementException], and lets every other driver
    exception through; the scraper's state is unchanged. *)
Theorem safe_extract_text_single_selector (u : ucd) (c : card) (sel : string) (st : St) :
  safe_extract_text u c sel st =
  (match find_element c sel with
   | Ok t => Ok (py_strip u t)
   | Raise NoSuchElementException => Ok []
   | Raise e => Raise e
   end, st).
Proof. rewrite safe_extract_text_eq. reflexivity. Qed.

(** Claim C2, counterexample: a stale element makes the lookup raise. *)
Lemma safe_extract_text_throws :
  fst (safe_extract_text ucd_latin1 card_stale_distance sel_distance new_scraper) = Raise stale.
Proof. vm_compute. reflexivity. Qed.

(** Claim C3: a run waits for the cards of at most [max_pages] pages, and
    each click of the next-page control happens on a page [q] with
    [q < max_pages - 1]: never on the last allowed page. *)
Theorem page_budget_respected (u : ucd) (E : env) (url : string) (mp : Z) (st : St) :
  exists new,
    events (snd (scrape_hotel_data u E url mp st)) = events st ++ new /\
    (count_waits new <= Z.to_nat mp)%nat /\
    (forall q, In (EvClickNext q) new -> (Z.of_nat q < mp - 1)%Z).
Proof.
  destruct (scrape_hotel_data_eq u E url mp st) as (k & new & _ & _ & V & W & C & _).
  exists new. exact (conj V (conj W C)).
Qed.

(** Claim C4 (amended): [_scrape_current_page] appends a card exactly when
    none of its six lookups raises a driver exception other than
    [NoSuchElementException] and its stripped name is non-empty, in card
    order; a named card with such a fault is dropped.  A field that is not
    found is the empty string, or 0.0 for the price and the rating. *)
Theorem page_keeps_named_cards (u : ucd) (E : env) (st : St) (cards : list card) :
  pg_cards (current E st) = Ok cards ->
  data (snd (scrape_current_page u E st)) =
    data st ++ map (card_hotel u)
      (filter (fun c => negb (card_faults u c) && nonempty (text_of u c sel_title)) cards) /\
  (forall c sel, find_element c sel = Raise NoSuchElementException -> text_of u c sel = []) /\
  (forall c, find_element c sel_price = Raise NoSuchElementException ->
             price (card_hotel u c) = PFin 0) /\
  (forall c, find_element c sel_rating = Raise NoSuchElementException ->
             rating (card_hotel u c) = PFin 0).
Proof.
  intros Hc.
  destruct (scrape_current_page_eq u E st) as (_ & D & _).
  refine (conj _ (conj _ (conj _ _))).
  - rewrite D, Hc. reflexivity.
  - intros c sel H. unfold text_of, field. rewrite H. reflexivity.
  - intros c H. unfold card_hotel, text_of, field. cbn [price]. rewrite H. reflexivity.
  - intros c H. unfold card_hotel, text_of, field. cbn [rating]. rewrite H. reflexivity.
Qed.

(** Claim C4, counterexample: a named card whose distance element goes
    stale is not appended. *)
Lemma named_card_dropped :
  text_of ucd_latin1 card_stale_distance sel_title = pys "Hotel B" /\
  data (snd (scrape_current_page ucd_latin1 (env_pages [card_stale_distance]) new_scraper)) = [].
Proof. split; vm_compute; reflexivity. Qed.

Lemma page_keeps_named_cards_witness :
  pg_cards (current (env_pages [named_card "Hotel A"; named_card "   "; card_stale_distance; []])
              new_scraper)
    = Ok [named_card "Hotel A"; named_card "   "; card_stale_distance; []] /\
  (data (snd (scrape_current_page ucd_latin1
                (env_pages [named_card "Hotel A"; named_card "   "; card_stale_distance; []])
                new_scraper)) =
     data new_scraper ++ map (card_hotel ucd_latin1)
       (filter (fun c => negb (card_faults ucd_latin1 c) && nonempty (text_of ucd_latin1 c sel_title))
          [named_card "Hotel A"; named_card "   "; card_stale_distance; []]) /\
   (forall c sel, find_element c sel = Raise NoSuchElementException -> text_of ucd_latin1 c sel = []) /\
   (forall c, find_element c sel_price = Raise NoSuchElementException ->
              price (card_hotel ucd_latin1 c) = PFin 0) /\
   (forall c, find_element c sel_rating = Raise NoSuchElementException ->
              rating (card_hotel ucd_latin1 c) = PFin 0)).
Proof.
  split; [reflexivity |].
  apply (page_keeps_named_cards ucd_latin1
           (env_pages [named_card "Hotel A"; named_card "   "; card_stale_distance; []])
           new_scraper [named_card "Hotel A"; named_card "   "; card_stale_distance; []]).
  reflexivity.
Defined.

(** Claim C5: on a page whose cards all have a name apart from the faulty
    ones, [_scrape_current_page] returns normally, appends every card that
    does not fault, in order, logs one warning per faulty card, and returns
    the number of cards minus the number of faulty cards. *)
Theorem page_skips_faulty_cards (u : ucd) (E : env) (st : St) (cards : list card) :
  pg_cards (current E st) = Ok cards ->
  forallb (fun c => card_faults u c || nonempty (text_of u c sel_title)) cards = true ->
  fst (scrape_current_page u E st) =
    Ok (Z.of_nat (List.length cards - List.length (filter (card_faults u) cards))) /\
  data (snd (scrape_current_page u E st)) =
    data st ++ map (card_hotel u) (filter (fun c => negb (card_faults u c)) cards) /\
  logs (snd (scrape_current_page u E st)) =
    logs st ++ (INFO, "Found hotel cards on current page"%string)
              :: repeat card_warning (List.length (filter (card_faults u) cards)).
Proof.
  intros Hc Hf.
  destruct (scrape_current_page_eq u E st) as (F & D & L & _).
  rewrite Hc in F, D, L. cbn [page_recs page_log] in F, D, L.
  assert (K : filter (card_kept u) cards = filter (fun c => negb (card_faults u c)) cards).
  { apply filter_ext_in. intros c Hin. unfold card_kept.
    rewrite forallb_forall in Hf. specialize (Hf c Hin).
    destruct (card_faults u c); [reflexivity |]. cbn in Hf |- *. exact Hf. }
  unfold page_records in F, D. rewrite K in F, D.
  refine (conj _ (conj D L)).
  rewrite F, length_map. do 2 f_equal.
  pose proof (filter_length_split (card_faults u) cards). lia.
Qed.

Lemma page_skips_faulty_cards_witness :
  pg_cards (current (env_pages [named_card "Hotel A"; card_stale_distance; named_card "Hotel C"])
              new_scraper)
    = Ok [named_card "Hotel A"; card_stale_distance; named_card "Hotel C"] /\
  forallb (fun c => card_faults ucd_latin1 c || nonempty (text_of ucd_latin1 c sel_title))
    [named_card "Hotel A"; card_stale_distance; named_card "Hotel C"] = true /\
  (fst (scrape_current_page ucd_latin1
          (env_pages [named_card "Hotel A"; card_stale_distance; named_card "Hotel C"]) new_scraper) =
     Ok (Z.of_nat (List.length [named_card "Hotel A"; card_stale_distance; named_card "Hotel C"] -
                   List.length (filter (card_faults ucd_latin1)
                     [named_card "Hotel A"; card_stale_distance; named_card "Hotel C"]))) /\
   data (snd (scrape_current_page ucd_latin1
          (env_pages [named_card "Hotel A"; card_stale_distance; named_card "Hotel C"]) new_scraper)) =
     data new_scraper ++ map (card_hotel ucd_latin1)
       (filter (fun c => negb (card_faults ucd_latin1 c))
          [named_card "Hotel A"; card_stale_distance; named_card "Hotel C"]) /\
   logs (snd (scrape_current_page ucd_latin1
          (env_pages [named_card "Hotel A"; card_stale_distance; named_card "Hotel C"]) new_scraper)) =
     logs new_scraper ++ (INFO, "Found hotel cards on current page"%string)
       :: repeat card_warning (List.length (filter (card_faults ucd_latin1)
            [named_card "Hotel A"; card_stale_distance; named_card "Hotel C"]))).
Proof.
  split; [reflexivity |]. split; [vm_compute; reflexivity |].
  apply (page_skips_faulty_cards ucd_latin1
           (env_pages [named_card "Hotel A"; card_stale_distance; named_card "Hotel C"])
           new_scraper [named_card "Hotel A"; card_stale_distance; named_card "Hotel C"]);
    vm_compute; reflexivity.
Defined.

(** Claim C6 (a defect of the code: see [superscript_price]): [_clean_price] keeps the characters for which
    [str.isdigit] holds and '.', and parses the first whitespace-separated
    token.  It agrees with [parsePrice] on every string whose digit
    characters are decimal digits and not whitespace (and '.' is not
    whitespace); the three examples of the specification hold. *)
Theorem clean_price_matches_spec (u : ucd) (s : pystr) :
  uc_isspace u dot = false ->
  forallb (fun c => negb (uc_isdigit u c) || (is_dec u c && negb (uc_isspace u c))) s = true ->
  forallb (fun c => negb (is_dec u c) || uc_isdigit u c) s = true ->
  clean_price u s = parse_price_spec u s /\
  clean_price ucd_latin1 [] = PFin 0 /\
  clean_price ucd_latin1 (8364%N :: pys "123.45") = pyfloat_lit 12345 2 /\
  clean_price ucd_latin1 (pys "abc") = PFin 0.
Proof.
  intros Hdot H1 H2. rewrite forallb_forall in H1, H2.
  split; [| split; [reflexivity | split; vm_compute; reflexivity]].
  apply clean_price_refines.
  - intros c Hc D. specialize (H2 c Hc). rewrite D in H2. exact H2.
  - intros c Hc D. specialize (H1 c Hc). rewrite D in H1. cbn in H1.
    apply andb_true_iff in H1. destruct H1 as [_ H1]. apply negb_true_iff. exact H1.
  - exact Hdot.
  - intros c Hc D. specialize (H1 c Hc). rewrite D in H1. cbn in H1.
    apply andb_true_iff in H1. exact (proj1 H1).
Qed.

(** Claim C6, counterexample: the superscript two is a digit for
    [str.isdigit] but not a decimal digit; it is kept and [float()] fails,
    so "12²" gives 0.0 where [parsePrice] gives 12.0. *)
Lemma superscript_price :
  clean_price ucd_latin1 (pys "12" ++ [178%N]) = PFin 0 /\
  parse_price_spec ucd_latin1 (pys "12" ++ [178%N]) = pyfloat_lit 12 0.
Proof. split; vm_compute; reflexivity. Qed.

Lemma clean_price_matches_spec_witness :
  uc_isspace ucd_latin1 dot = false /\
  forallb (fun c => negb (uc_isdigit ucd_latin1 c) ||
                    (is_dec ucd_latin1 c && negb (uc_isspace ucd_latin1 c)))
    (8364%N :: pys "123.45") = true /\
  forallb (fun c => negb (is_dec ucd_latin1 c) || uc_isdigit ucd_latin1 c)
    (8364%N :: pys "123.45") = true /\
  (clean_price ucd_latin1 (8364%N :: pys "123.45") =
     parse_price_spec ucd_latin1 (8364%N :: pys "123.45") /\
   clean_price ucd_latin1 [] = PFin 0 /\
   clean_price ucd_latin1 (8364%N :: pys "123.45") = pyfloat_lit 12345 2 /\
   clean_price ucd_latin1 (pys "abc") = PFin 0).
Proof.
  split; [reflexivity |]. split; [vm_compute; reflexivity |].
  split; [vm_compute; reflexivity |].
  apply (clean_price_matches_spec ucd_latin1 (8364%N :: pys "123.45"));
    vm_compute; reflexivity.
Defined.

(** Claim C7: [_clean_rating] returns 0.0 on text without a decimal digit;
    otherwise it returns the value of the leftmost numeral, read as
    [digits '.' digits] when a '.' and a digit follow the leading digits and
    as [digits] when they do not (taking '.' not to be a decimal digit).
    The three examples of the specification hold. *)
Theorem clean_rating_first_numeral (u : ucd) :
  is_dec u dot = false ->
  (forall s, no_dec u s -> clean_rating u s = PFin 0) /\
  (forall pre d post,
     no_dec u pre -> d <> [] -> all_dec u d -> starts_dec u post = false ->
     ~ (exists d2 rest, post = dot :: d2 ++ rest /\ d2 <> [] /\ all_dec u d2) ->
     clean_rating u (pre ++ d ++ post) = to_pyfloat (dec_value u d [])) /\
  (forall pre d1 d2 post,
     no_dec u pre -> d1 <> [] -> all_dec u d1 -> d2 <> [] -> all_dec u d2 ->
     starts_dec u post = false ->
     clean_rating u (pre ++ d1 ++ dot :: d2 ++ post) = to_pyfloat (dec_value u d1 d2)) /\
  clean_rating ucd_latin1 (pys "8.3 Good") = pyfloat_lit 83 1 /\
  clean_rating ucd_latin1 (pys "Wonderful") = PFin 0 /\
  clean_rating ucd_latin1 (pys "9") = pyfloat_lit 9 0.
Proof.
  intros Hdot.
  refine (conj (clean_rating_none u) (conj _ (conj _ _))).
  - intros. apply clean_rating_integer; assumption.
  - intros. apply clean_rating_decimal; assumption.
  - split; [| split]; vm_compute; reflexivity.
Qed.

Lemma clean_rating_first_numeral_witness :
  is_dec ucd_latin1 dot = false /\
  clean_rating ucd_latin1 (pys "8.3 Good") = pyfloat_lit 83 1.
Proof.
  split; [reflexivity |].
  apply (clean_rating_first_numeral ucd_latin1). reflexivity.
Defined.



(** Claim C9: over a run, [self.data] grows by the records of the pages
    visited, page 0 first and each page's records in card order, with nothing
    removed or reordered; the dataset returned is the frame of [self.data]
    (or empty when an exception escaped). *)
Theorem accumulator_page_order (u : ucd) (E : env) (url : string) (mp : Z) (st : St) :
  exists k, (k <= Z.to_nat mp)%nat /\
    data (snd (scrape_hotel_data u E url mp st)) =
      data st ++ List.concat (map (recs_at u E) (seq 0 k)) /\
    (fst (scrape_hotel_data u E url mp st) =
       Ok (to_frame E (data (snd (scrape_hotel_data u E url mp st)))) \/
     fst (scrape_hotel_data u E url mp st) = Ok []).
Proof.
  destruct (scrape_hotel_data_eq u E url mp st) as (k & new & K & D & _ & _ & _ & R).
  exists k. refine (conj K (conj D _)).
  destruct R as [R | [R _]]; [left | right]; exact R.
Qed.

(** Claim C10 (amended): [self.data] is only reset by the constructor; a
    second call appends to what the first left.  When the body of the
    second call completes, it returns the frame of the first call's records
    followed by its own, in order; when an exception escapes the body, it
    returns the empty frame. *)
Theorem data_kept_across_runs (u : ucd) (E1 E2 : env) (url1 url2 : string) (mp1 mp2 : Z)
  (st : St) :
  data new_scraper = [] /\
  exists new,
    data (snd (scrape_hotel_data u E2 url2 mp2 (snd (scrape_hotel_data u E1 url1 mp1 st)))) =
      data (snd (scrape_hotel_data u E1 url1 mp1 st)) ++ new /\
    (forall f, fst (scrape_body u E2 url2 mp2 (snd (scrape_hotel_data u E1 url1 mp1 st))) = Ok f ->
       fst (scrape_hotel_data u E2 url2 mp2 (snd (scrape_hotel_data u E1 url1 mp1 st))) =
         Ok (to_frame E2 (data (snd (scrape_hotel_data u E1 url1 mp1 st))) ++ to_frame E2 new)) /\
    (forall e, fst (scrape_body u E2 url2 mp2 (snd (scrape_hotel_data u E1 url1 mp1 st))) = Raise e ->
       fst (scrape_hotel_data u E2 url2 mp2 (snd (scrape_hotel_data u E1 url1 mp1 st))) = Ok []).
Proof.
  split; [reflexivity |].
  set (st1 := snd (scrape_hotel_data u E1 url1 mp1 st)).
  destruct (scrape_body_eq u E2 url2 mp2 st1) as (k & _ & _ & D & _ & _ & _ & R).
  destruct (scrape_hotel_data_body u E2 url2 mp2 st1) as (D2 & _ & Hok & Herr).
  exists (List.concat (map (recs_at u E2) (seq 0 k))).
  refine (conj _ (conj _ Herr)).
  - rewrite D2. exact D.
  - intros f Hf. rewrite (Hok f Hf).
    destruct R as [R | [e R]]; rewrite R in Hf; [| discriminate].
    injection Hf as <-. rewrite D. unfold to_frame. rewrite map_app. reflexivity.
Qed.

(** Claim C10, counterexample: after a first run that collected a listing,
    a second run whose session is gone returns an empty dataset, although
    the listing is still in [self.data]. *)
Lemma second_run_drops_first_records :
  data first_run = [card_hotel ucd_latin1 (named_card "Hotel A")] /\
  fst (scrape_hotel_data ucd_latin1 env_no_session search_url 1 first_run) = Ok [] /\
  data (snd (scrape_hotel_data ucd_latin1 env_no_session search_url 1 first_run)) = data first_run.
Proof. split; [| split]; vm_compute; reflexivity. Qed.

(** ** Further properties of the code *)

Section ScanProofs.
Variable E : env.

Lemma try_next_selectors_scan (sels : list string) : forall st,
  try_next_selectors E sels st =
  match first_clickable (pg_clickable (current E st)) sels with
  | Ok true =>
      (Ok true, {| data := data st;
                   logs := logs st ++ [(INFO, "Navigated to next page"%string)];
                   events := events st ++ [EvClickNext (cur_page st)];
                   cur_page := S (cur_page st) |})
  | Ok false => (Ok false, set_logs (logs st ++ [(INFO, "No next page button found"%string)]) st)
  | Raise e => (Raise e, st)
  end.
Proof.
  induction sels as [| sel rest IH]; intros st; [reflexivity |].
  cbn [try_next_selectors first_clickable]. cbv [try_except bind wait_clickable].
  destruct (lookup_sel (pg_clickable (current E st)) sel TimeoutException) as [[] | e]; cbn.
  - reflexivity.
  - destruct e; cbn; [reflexivity | apply IH | reflexivity].
Qed.

Lemma try_cookie_selectors_scan (sels : list string) : forall st,
  try_cookie_selectors E sels st =
  match first_clickable (pg_clickable (current E st)) sels with
  | Ok true => (Ok true, set_logs (logs st ++ [(INFO, "Cookies accepted successfully"%string)]) st)
  | Ok false => (Ok false, set_logs (logs st ++ [(INFO, "No cookie consent banner found"%string)]) st)
  | Raise e => (Raise e, st)
  end.
Proof.
  induction sels as [| sel rest IH]; intros st; [reflexivity |].
  cbn [try_cookie_selectors first_clickable]. cbv [try_except bind wait_clickable].
  destruct (lookup_sel (pg_clickable (current E st)) sel TimeoutException) as [[] | e]; cbn.
  - reflexivity.
  - destruct e; cbn; [reflexivity | apply IH | reflexivity].
Qed.

Lemma go_to_next_page_scan (st : St) :
  go_to_next_page E st =
  match first_clickable (pg_clickable (current E st)) next_selectors with
  | Ok true =>
      (Ok true, {| data := data st;
                   logs := logs st ++ [(INFO, "Navigated to next page"%string)];
                   events := events st ++ [EvClickNext (cur_page st)];
                   cur_page := S (cur_page st) |})
  | Ok false => (Ok false, set_logs (logs st ++ [(INFO, "No next page button found"%string)]) st)
  | Raise _ => (Ok false, set_logs (logs st ++ [(WARNING, "Error navigating to next page"%string)]) st)
  end.
Proof.
  unfold go_to_next_page, try_except. rewrite try_next_selectors_scan.
  destruct (first_clickable _ _) as [[|] | e]; reflexivity.
Qed.

Lemma accept_cookies_scan (st : St) :
  accept_cookies E st =
  match first_clickable (pg_clickable (current E st)) cookie_selectors with
  | Ok true => (Ok true, set_logs (logs st ++ [(INFO, "Cookies accepted successfully"%string)]) st)
  | Ok false => (Ok false, set_logs (logs st ++ [(INFO, "No cookie consent banner found"%string)]) st)
  | Raise _ => (Ok false, set_logs (logs st ++ [(WARNING, "Could not handle cookies"%string)]) st)
  end.
Proof.
  unfold accept_cookies, try_except. rewrite try_cookie_selectors_scan.
  destruct (first_clickable _ _) as [[|] | e]; reflexivity.
Qed.

End ScanProofs.

Section RunTraceProofs.
Variable u : ucd.
Variable E : env.

Lemma loop_body_good (mp : Z) (p : nat) (st : St) :
  cur_page st = p -> (p < Z.to_nat mp)%nat ->
  pg_wait (env_page E p) = Ok tt ->
  ((S p < Z.to_nat mp)%nat -> first_clickable (pg_clickable (env_page E p)) next_selectors = Ok true) ->
  fst (loop_body u E mp p st) = Ok true /\
  data (snd (loop_body u E mp p st)) = data st ++ recs_at u E p /\
  events (snd (loop_body u E mp p st)) = events st ++ visit_trace (Z.to_nat mp) p /\
  cur_page (snd (loop_body u E mp p st)) = (if (S p <? Z.to_nat mp)%nat then S p else p).
Proof.
  intros Hp Hlt W N. subst p.
  unfold visit_trace. destruct (S (cur_page st) <? Z.to_nat mp)%nat eqn:L.
  - apply Nat.ltb_lt in L.
    assert (Z : (Z.of_nat (cur_page st) <? mp - 1)%Z = true) by (apply Z.ltb_lt; lia).
    unfold loop_body. rewrite Z.
    cbv [bind log try_except wait_cards get_page emit current].
    cbn -[scrape_current_page go_to_next_page].
    rewrite W. cbn -[scrape_current_page go_to_next_page].
    match goal with |- context [scrape_current_page u E ?s] =>
      destruct (scrape_current_page_eq u E s) as (C1 & C2 & C3 & C4 & C5);
      destruct (scrape_current_page u E s) as [r4 st4] eqn:R4
    end.
    cbn [fst snd] in *. subst r4.
    change (current E ?s) with (env_page E (cur_page s)) in C2.
    cbn in C2, C4, C5. unfold recs_at.
    cbn -[go_to_next_page]. rewrite go_to_next_page_scan.
    change (current E ?s) with (env_page E (cur_page s)). cbn [cur_page set_logs].
    rewrite C5, (N L).
    cbn. rewrite C2, C4, ?C5, <- app_assoc. repeat split.
  - apply Nat.ltb_ge in L.
    assert (Z : (Z.of_nat (cur_page st) <? mp - 1)%Z = false) by (apply Z.ltb_ge; lia).
    unfold loop_body. rewrite Z.
    cbv [bind log try_except wait_cards get_page emit current].
    cbn -[scrape_current_page].
    rewrite W. cbn -[scrape_current_page].
    match goal with |- context [scrape_current_page u E ?s] =>
      destruct (scrape_current_page_eq u E s) as (C1 & C2 & C3 & C4 & C5);
      destruct (scrape_current_page u E s) as [r4 st4] eqn:R4
    end.
    cbn [fst snd] in *. subst r4.
    change (current E ?s) with (env_page E (cur_page s)) in C2.
    cbn in C2, C4, C5. unfold recs_at.
    cbn. rewrite C2, C4, C5. repeat split.
Qed.

(** [n] iterations over pages whose cards appear and whose next-page
    control is found leave the loop at page [p + n] in the state [st']. *)
Lemma pages_loop_good (mp : Z) (n : nat) : forall p m st,
  cur_page st = p -> (p + n + m <= Z.to_nat mp)%nat ->
  (forall q, (p <= q < p + n)%nat -> pg_wait (env_page E q) = Ok tt) ->
  (forall q, (p <= q < p + n)%nat -> (S q < Z.to_nat mp)%nat ->
     first_clickable (pg_clickable (env_page E q)) next_selectors = Ok true) ->
  exists st',
    pages_loop u E mp p (n + m) st = pages_loop u E mp (p + n) m st' /\
    data st' = data st ++ List.concat (map (recs_at u E) (seq p n)) /\
    events st' = events st ++ run_trace (Z.to_nat mp) p n /\
    ((0 < m)%nat -> cur_page st' = (p + n)%nat).
Proof.
  induction n as [| n IH]; intros p m st Hp Hle W N.
  - exists st. rewrite Nat.add_0_r. cbn. rewrite !app_nil_r.
    refine (conj eq_refl (conj eq_refl (conj eq_refl _))). intros _. lia.
  - destruct (loop_body_good mp p st Hp ltac:(lia) (W p ltac:(lia)) (N p ltac:(lia)))
      as (B1 & B2 & B3 & B4).
    cbn [Nat.add pages_loop]. unfold bind.
    destruct (loop_body u E mp p st) as [r1 st1] eqn:R. cbn [fst snd] in B1, B2, B3, B4.
    subst r1.
    assert (HS : (S p < Z.to_nat mp)%nat \/ (n = 0 /\ m = 0)%nat) by lia.
    destruct HS as [HS | [-> ->]].
    + apply Nat.ltb_lt in HS. rewrite HS in B4.
      destruct (IH (S p) m st1 B4 ltac:(lia)
                  (fun q Hq => W q ltac:(lia)) (fun q Hq => N q ltac:(lia)))
        as (st' & E1 & E2 & E3 & E4).
      exists st'. rewrite E1. replace (S p + n)%nat with (p + S n)%nat by lia.
      refine (conj eq_refl (conj _ (conj _ _))).
      * rewrite E2, B2, <- app_assoc. reflexivity.
      * rewrite E3, B3, <- app_assoc. reflexivity.
      * intros Hm. rewrite E4 by exact Hm. lia.
    + exists st1. cbn.
      refine (conj eq_refl (conj _ (conj _ _))).
      * rewrite B2, app_nil_r. reflexivity.
      * rewrite B3. unfold run_trace. cbn. rewrite app_nil_r. reflexivity.
      * intros H; lia.
Qed.

Lemma scrape_body_after_cookies (url : string) (mp : Z) (st : St) (n : nat) :
  env_get E url = Ok tt -> n = Z.to_nat mp ->
  exists st2, data st2 = data st /\ events st2 = events st /\ cur_page st2 = 0%nat /\
    scrape_body u E url mp st =
    (pages_loop u E mp 0 n;; log INFO "Scraping completed";; create_dataframe E) st2.
Proof.
  intros H ->. unfold scrape_body.
  cbv [bind log driver_get lift ret]. rewrite H.
  set (st1 := set_page 0 _).
  destruct (accept_cookies_frame E st1) as [[b Hb] [A2 [A3 A4]]].
  destruct (accept_cookies E st1) as [r2 st2] eqn:R2. cbn [fst snd] in *. subst r2.
  exists st2. rewrite A2, A3, A4. cbn. auto.
Qed.

Lemma after_loop (m : M unit) (st2 st3 : St) :
  m st2 = (Ok tt, st3) ->
  exists st4, data st4 = data st3 /\ events st4 = events st3 /\
    (m;; log INFO "Scraping completed";; create_dataframe E) st2 = (Ok (to_frame E (data st3)), st4).
Proof.
  intros H. cbv [bind log]. rewrite H.
  set (st' := set_logs _ st3).
  destruct (create_dataframe_eq E st') as (F1 & F2 & F3).
  destruct (create_dataframe E st') as [r st4]. cbn [fst snd] in *. subst r.
  exists st4. rewrite F2, F3. auto.
Qed.

Lemma loop_body_timeout (mp : Z) (p : nat) (st : St) :
  cur_page st = p -> pg_wait (env_page E p) = Raise TimeoutException ->
  fst (loop_body u E mp p st) = Ok false /\
  data (snd (loop_body u E mp p st)) = data st /\
  events (snd (loop_body u E mp p st)) = events st ++ [EvWaitCards p].
Proof.
  intros Hp W. subst p. unfold loop_body.
  cbv [bind log try_except wait_cards get_page emit current]. cbn -[scrape_current_page].
  rewrite W. cbn. auto.
Qed.

Lemma loop_body_no_next (mp : Z) (p : nat) (st : St) :
  cur_page st = p -> pg_wait (env_page E p) = Ok tt -> (Z.of_nat p < mp - 1)%Z ->
  first_clickable (pg_clickable (env_page E p)) next_selectors <> Ok true ->
  fst (loop_body u E mp p st) = Ok false /\
  data (snd (loop_body u E mp p st)) = data st ++ recs_at u E p /\
  events (snd (loop_body u E mp p st)) = events st ++ [EvWaitCards p].
Proof.
  intros Hp W L N. subst p.
  apply Z.ltb_lt in L.
  unfold loop_body. rewrite L.
  cbv [bind log try_except wait_cards get_page emit current].
  cbn -[scrape_current_page go_to_next_page].
  rewrite W. cbn -[scrape_current_page go_to_next_page].
  match goal with |- context [scrape_current_page u E ?s] =>
    destruct (scrape_current_page_eq u E s) as (C1 & C2 & C3 & C4 & C5);
    destruct (scrape_current_page u E s) as [r4 st4] eqn:R4
  end.
  cbn [fst snd] in *. subst r4.
  change (current E ?s) with (env_page E (cur_page s)) in C2.
  cbn in C2, C4, C5. unfold recs_at.
  cbn -[go_to_next_page]. rewrite go_to_next_page_scan.
  change (current E ?s) with (env_page E (cur_page s)). cbn [cur_page set_logs].
  rewrite C5.
  destruct (first_clickable _ _) as [[|] | e]; [congruence | |];
    cbn; rewrite C2, C4; auto.
Qed.

End RunTraceProofs.

(** Extra: when [driver.get] succeeds, every page shows its cards and every
    page but the last has a next-page control, [scrape_hotel_data] visits
    pages [0 .. max_pages - 1] in order (waiting on each, clicking next on
    all but the last) and returns the frame of [self.data], which has grown
    by the records of these pages. *)
Theorem full_run_visits_every_page (u : ucd) (E : env) (url : string) (mp : Z) (st : St) :
  env_get E url = Ok tt ->
  (forall q, (q < Z.to_nat mp)%nat -> pg_wait (env_page E q) = Ok tt) ->
  (forall q, (S q < Z.to_nat mp)%nat ->
     first_clickable (pg_clickable (env_page E q)) next_selectors = Ok true) ->
  fst (scrape_hotel_data u E url mp st) =
    Ok (to_frame E (data st ++ List.concat (map (recs_at u E) (seq 0 (Z.to_nat mp))))) /\
  data (snd (scrape_hotel_data u E url mp st)) =
    data st ++ List.concat (map (recs_at u E) (seq 0 (Z.to_nat mp))) /\
  events (snd (scrape_hotel_data u E url mp st)) =
    events st ++ run_trace (Z.to_nat mp) 0 (Z.to_nat mp).
Proof.
  intros G W N.
  destruct (scrape_body_after_cookies u E url mp st (Z.to_nat mp + 0) G ltac:(lia))
    as (st2 & D2 & V2 & P2 & EQ).
  destruct (pages_loop_good u E mp (Z.to_nat mp) 0 0 st2 P2 ltac:(lia)
              (fun q Hq => W q ltac:(lia)) (fun q _ H => N q H))
    as (st' & L1 & L2 & L3 & _).
  assert (PL : pages_loop u E mp 0 (Z.to_nat mp + 0) st2 = (Ok tt, st')) by (rewrite L1; reflexivity).
  destruct (after_loop E _ _ _ PL) as (st4 & F1 & F2 & F3).
  unfold scrape_hotel_data, try_except. rewrite EQ, F3. cbn [fst snd].
  rewrite F1, F2, L2, L3, D2, V2. auto.
Qed.

Lemma full_run_visits_every_page_witness :
  env_get (env_pages [named_card "Hotel A"; named_card "Hotel B"]) search_url = Ok tt /\
  (forall q, (q < Z.to_nat 3)%nat ->
     pg_wait (env_page (env_pages [named_card "Hotel A"; named_card "Hotel B"]) q) = Ok tt) /\
  (forall q, (S q < Z.to_nat 3)%nat ->
     first_clickable (pg_clickable (env_page (env_pages [named_card "Hotel A"; named_card "Hotel B"]) q))
       next_selectors = Ok true) /\
  (fst (scrape_hotel_data ucd_latin1 (env_pages [named_card "Hotel A"; named_card "Hotel B"])
          search_url 3 new_scraper) =
     Ok (to_frame (env_pages [named_card "Hotel A"; named_card "Hotel B"])
           (data new_scraper ++ List.concat (map (recs_at ucd_latin1
              (env_pages [named_card "Hotel A"; named_card "Hotel B"])) (seq 0 (Z.to_nat 3))))) /\
   data (snd (scrape_hotel_data ucd_latin1 (env_pages [named_card "Hotel A"; named_card "Hotel B"])
          search_url 3 new_scraper)) =
     data new_scraper ++ List.concat (map (recs_at ucd_latin1
              (env_pages [named_card "Hotel A"; named_card "Hotel B"])) (seq 0 (Z.to_nat 3))) /\
   events (snd (scrape_hotel_data ucd_latin1 (env_pages [named_card "Hotel A"; named_card "Hotel B"])
          search_url 3 new_scraper)) =
     events new_scraper ++ run_trace (Z.to_nat 3) 0 (Z.to_nat 3)).
Proof.
  split; [reflexivity |]. split; [intros q _; reflexivity |].
  split; [intros q _; vm_compute; reflexivity |].
  apply (full_run_visits_every_page ucd_latin1 (env_pages [named_card "Hotel A"; named_card "Hotel B"])
           search_url 3 new_scraper).
  - reflexivity.
  - intros q _. reflexivity.
  - intros q _. vm_compute. reflexivity.
Defined.

(** Extra: if the wait for property cards times out on page [k] (the pages
    before it being complete), the run stops there: it returns the frame of
    [self.data], grown by the records of pages [0 .. k - 1] only, and does
    not look at any later page. *)
Theorem run_stops_when_no_cards (u : ucd) (E : env) (url : string) (mp : Z) (st : St) (k : nat) :
  env_get E url = Ok tt -> (k < Z.to_nat mp)%nat ->
  (forall q, (q < k)%nat -> pg_wait (env_page E q) = Ok tt) ->
  (forall q, (q < k)%nat -> first_clickable (pg_clickable (env_page E q)) next_selectors = Ok true) ->
  pg_wait (env_page E k) = Raise TimeoutException ->
  fst (scrape_hotel_data u E url mp st) =
    Ok (to_frame E (data st ++ List.concat (map (recs_at u E) (seq 0 k)))) /\
  data (snd (scrape_hotel_data u E url mp st)) =
    data st ++ List.concat (map (recs_at u E) (seq 0 k)) /\
  events (snd (scrape_hotel_data u E url mp st)) =
    events st ++ run_trace (Z.to_nat mp) 0 k ++ [EvWaitCards k].
Proof.
  intros G Hk W N T.
  assert (Hm : exists m', Z.to_nat mp = (k + S m')%nat) by (exists (Z.to_nat mp - S k)%nat; lia).
  destruct Hm as [m' Hm].
  destruct (scrape_body_after_cookies u E url mp st (k + S m') G ltac:(lia))
    as (st2 & D2 & V2 & P2 & EQ).
  destruct (pages_loop_good u E mp k 0 (S m') st2 P2 ltac:(lia)
              (fun q Hq => W q ltac:(lia)) (fun q Hq _ => N q ltac:(lia)))
    as (st' & L1 & L2 & L3 & L4).
  specialize (L4 ltac:(lia)). cbn [Nat.add] in L4.
  destruct (loop_body_timeout u E mp k st' L4 T) as (B1 & B2 & B3).
  assert (PL : pages_loop u E mp 0 (k + S m') st2 = (Ok tt, snd (loop_body u E mp k st'))).
  { rewrite L1. cbn [Nat.add pages_loop]. unfold bind.
    destruct (loop_body u E mp k st') as [r s'] eqn:R. cbn in B1 |- *. subst r. reflexivity. }
  destruct (after_loop E _ _ _ PL) as (st4 & F1 & F2 & F3).
  unfold scrape_hotel_data, try_except. rewrite EQ, F3. cbn [fst snd].
  rewrite F1, F2, B2, B3, L2, L3, D2, V2, <- app_assoc. auto.
Qed.

Lemma run_stops_when_no_cards_witness :
  env_get env_timeout_on_page2 search_url = Ok tt /\ (1 < Z.to_nat 3)%nat /\
  (forall q, (q < 1)%nat -> pg_wait (env_page env_timeout_on_page2 q) = Ok tt) /\
  (forall q, (q < 1)%nat ->
     first_clickable (pg_clickable (env_page env_timeout_on_page2 q)) next_selectors = Ok true) /\
  pg_wait (env_page env_timeout_on_page2 1) = Raise TimeoutException /\
  (fst (scrape_hotel_data ucd_latin1 env_timeout_on_page2 search_url 3 new_scraper) =
     Ok (to_frame env_timeout_on_page2
           (data new_scraper ++ List.concat (map (recs_at ucd_latin1 env_timeout_on_page2) (seq 0 1)))) /\
   data (snd (scrape_hotel_data ucd_latin1 env_timeout_on_page2 search_url 3 new_scraper)) =
     data new_scraper ++ List.concat (map (recs_at ucd_latin1 env_timeout_on_page2) (seq 0 1)) /\
   events (snd (scrape_hotel_data ucd_latin1 env_timeout_on_page2 search_url 3 new_scraper)) =
     events new_scraper ++ run_trace (Z.to_nat 3) 0 1 ++ [EvWaitCards 1]).
Proof.
  assert (W : forall q, (q < 1)%nat -> pg_wait (env_page env_timeout_on_page2 q) = Ok tt).
  { intros q Hq. destruct q; [reflexivity | lia]. }
  assert (N : forall q, (q < 1)%nat ->
            first_clickable (pg_clickable (env_page env_timeout_on_page2 q)) next_selectors = Ok true).
  { intros q Hq. destruct q; [vm_compute; reflexivity | lia]. }
  split; [reflexivity |]. split; [cbn; lia |].
  split; [exact W |]. split; [exact N |]. split; [reflexivity |].
  exact (run_stops_when_no_cards ucd_latin1 env_timeout_on_page2 search_url 3 new_scraper 1
           eq_refl ltac:(cbn; lia) W N eq_refl).
Defined.

(** Extra: if page [k] is not the last allowed page and no next-page
    control can be clicked on it (the pages before it being complete), the
    run extracts page [k] and stops: [self.data] grows by the records of
    pages [0 .. k], and the frame of [self.data] is returned. *)
Theorem run_stops_without_next_page (u : ucd) (E : env) (url : string) (mp : Z) (st : St)
  (k : nat) :
  env_get E url = Ok tt -> (S k < Z.to_nat mp)%nat ->
  (forall q, (q <= k)%nat -> pg_wait (env_page E q) = Ok tt) ->
  (forall q, (q < k)%nat -> first_clickable (pg_clickable (env_page E q)) next_selectors = Ok true) ->
  first_clickable (pg_clickable (env_page E k)) next_selectors <> Ok true ->
  fst (scrape_hotel_data u E url mp st) =
    Ok (to_frame E (data st ++ List.concat (map (recs_at u E) (seq 0 (S k))))) /\
  data (snd (scrape_hotel_data u E url mp st)) =
    data st ++ List.concat (map (recs_at u E) (seq 0 (S k))) /\
  events (snd (scrape_hotel_data u E url mp st)) =
    events st ++ run_trace (Z.to_nat mp) 0 k ++ [EvWaitCards k].
Proof.
  intros G Hk W N Nk.
  assert (Hm : exists m', Z.to_nat mp = (k + S m')%nat) by (exists (Z.to_nat mp - S k)%nat; lia).
  destruct Hm as [m' Hm].
  destruct (scrape_body_after_cookies u E url mp st (k + S m') G ltac:(lia))
    as (st2 & D2 & V2 & P2 & EQ).
  destruct (pages_loop_good u E mp k 0 (S m') st2 P2 ltac:(lia)
              (fun q Hq => W q ltac:(lia)) (fun q Hq _ => N q ltac:(lia)))
    as (st' & L1 & L2 & L3 & L4).
  specialize (L4 ltac:(lia)). cbn [Nat.add] in L4.
  destruct (loop_body_no_next u E mp k st' L4 (W k ltac:(lia)) ltac:(lia) Nk) as (B1 & B2 & B3).
  assert (PL : pages_loop u E mp 0 (k + S m') st2 = (Ok tt, snd (loop_body u E mp k st'))).
  { rewrite L1. cbn [Nat.add pages_loop]. unfold bind.
    destruct (loop_body u E mp k st') as [r s'] eqn:R. cbn in B1 |- *. subst r. reflexivity. }
  destruct (after_loop E _ _ _ PL) as (st4 & F1 & F2 & F3).
  unfold scrape_hotel_data, try_except. rewrite EQ, F3. cbn [fst snd].
  rewrite seq_S, map_app, concat_app. cbn [map List.concat]. rewrite app_nil_r.
  rewrite F1, F2, B2, B3, L2, L3, D2, V2, <- !app_assoc. auto.
Qed.

Lemma run_stops_without_next_page_witness :
  env_get env_no_next search_url = Ok tt /\ (1 < Z.to_nat 3)%nat /\
  (forall q, (q <= 0)%nat -> pg_wait (env_page env_no_next q) = Ok tt) /\
  (forall q, (q < 0)%nat ->
     first_clickable (pg_clickable (env_page env_no_next q)) next_selectors = Ok true) /\
  first_clickable (pg_clickable (env_page env_no_next 0)) next_selectors <> Ok true /\
  (fst (scrape_hotel_data ucd_latin1 env_no_next search_url 3 new_scraper) =
     Ok (to_frame env_no_next
           (data new_scraper ++ List.concat (map (recs_at ucd_latin1 env_no_next) (seq 0 1)))) /\
   data (snd (scrape_hotel_data ucd_latin1 env_no_next search_url 3 new_scraper)) =
     data new_scraper ++ List.concat (map (recs_at ucd_latin1 env_no_next) (seq 0 1)) /\
   events (snd (scrape_hotel_data ucd_latin1 env_no_next search_url 3 new_scraper)) =
     events new_scraper ++ run_trace (Z.to_nat 3) 0 0 ++ [EvWaitCards 0]).
Proof.
  assert (W : forall q, (q <= 0)%nat -> pg_wait (env_page env_no_next q) = Ok tt).
  { intros q _. reflexivity. }
  assert (N : forall q, (q < 0)%nat ->
            first_clickable (pg_clickable (env_page env_no_next q)) next_selectors = Ok true).
  { intros q Hq. lia. }
  assert (Nk : first_clickable (pg_clickable (env_page env_no_next 0)) next_selectors <> Ok true).
  { vm_compute. discriminate. }
  split; [reflexivity |]. split; [cbn; lia |].
  split; [exact W |]. split; [exact N |]. split; [exact Nk |].
  exact (run_stops_without_next_page ucd_latin1 env_no_next search_url 3 new_scraper 0
           eq_refl ltac:(cbn; lia) W N Nk).
Defined.

(** Extra: when [driver.get] raises, [scrape_hotel_data] returns the empty
    DataFrame without touching [self.data] or performing any browser action
    on the results pages. *)
Theorem run_without_page_load (u : ucd) (E : env) (url : string) (mp : Z) (st : St) (e : exn) :
  env_get E url = Raise e ->
  fst (scrape_hotel_data u E url mp st) = Ok [] /\
  data (snd (scrape_hotel_data u E url mp st)) = data st /\
  events (snd (scrape_hotel_data u E url mp st)) = events st /\
  logs (snd (scrape_hotel_data u E url mp st)) =
    logs st ++ [(INFO, "Starting scraping"%string); (ERROR, "Error during scraping"%string)].
Proof.
  intros H. unfold scrape_hotel_data, scrape_body, try_except.
  cbv [bind log driver_get lift raise ret]. rewrite H. cbn.
  rewrite <- app_assoc. auto.
Qed.

Lemma run_without_page_load_witness :
  env_get env_no_session search_url = Raise session_lost /\
  (fst (scrape_hotel_data ucd_latin1 env_no_session search_url 3 first_run) = Ok [] /\
   data (snd (scrape_hotel_data ucd_latin1 env_no_session search_url 3 first_run)) = data first_run /\
   events (snd (scrape_hotel_data ucd_latin1 env_no_session search_url 3 first_run)) = events first_run /\
   logs (snd (scrape_hotel_data ucd_latin1 env_no_session search_url 3 first_run)) =
     logs first_run ++ [(INFO, "Starting scraping"%string); (ERROR, "Error during scraping"%string)]).
Proof.
  split; [reflexivity |].
  exact (run_without_page_load ucd_latin1 env_no_session search_url 3 first_run session_lost eq_refl).
Defined.

(** Extra: with [max_pages <= 0] the loop body never runs: no results page
    is looked at, and the call returns the frame of the records already in
    [self.data] (from earlier calls). *)
Theorem run_with_no_page_budget (u : ucd) (E : env) (url : string) (mp : Z) (st : St) :
  (mp <= 0)%Z -> env_get E url = Ok tt ->
  fst (scrape_hotel_data u E url mp st) = Ok (to_frame E (data st)) /\
  data (snd (scrape_hotel_data u E url mp st)) = data st /\
  events (snd (scrape_hotel_data u E url mp st)) = events st.
Proof.
  intros Hmp G.
  destruct (scrape_body_after_cookies u E url mp st 0 G ltac:(lia)) as (st2 & D2 & V2 & P2 & EQ).
  assert (PL : pages_loop u E mp 0 0 st2 = (Ok tt, st2)) by reflexivity.
  destruct (after_loop E _ _ _ PL) as (st4 & F1 & F2 & F3).
  unfold scrape_hotel_data, try_except. rewrite EQ, F3. cbn [fst snd].
  rewrite F1, F2, D2, V2. auto.
Qed.

Lemma run_with_no_page_budget_witness :
  (0 <= 0)%Z /\ env_get (env_pages [named_card "Hotel C"]) search_url = Ok tt /\
  (fst (scrape_hotel_data ucd_latin1 (env_pages [named_card "Hotel C"]) search_url 0 first_run) =
     Ok (to_frame (env_pages [named_card "Hotel C"]) (data first_run)) /\
   data (snd (scrape_hotel_data ucd_latin1 (env_pages [named_card "Hotel C"]) search_url 0 first_run))
     = data first_run /\
   events (snd (scrape_hotel_data ucd_latin1 (env_pages [named_card "Hotel C"]) search_url 0 first_run))
     = events first_run).
Proof.
  split; [lia |]. split; [reflexivity |].
  exact (run_with_no_page_budget ucd_latin1 (env_pages [named_card "Hotel C"]) search_url 0 first_run
           ltac:(lia) eq_refl).
Defined.

(** Extra: [_go_to_next_page] never raises.  It returns [True] exactly when
    the first next-page selector whose wait does not time out is clickable;
    then it clicks once and the browser moves to the following page.
    Otherwise nothing is clicked, and a driver error met while waiting is
    logged as a warning. *)
Theorem next_page_outcome (E : env) (st : St) :
  fst (go_to_next_page E st) =
    Ok (match first_clickable (pg_clickable (current E st)) next_selectors with
        | Ok b => b
        | Raise _ => false
        end) /\
  data (snd (go_to_next_page E st)) = data st /\
  (fst (go_to_next_page E st) = Ok true ->
     events (snd (go_to_next_page E st)) = events st ++ [EvClickNext (cur_page st)] /\
     cur_page (snd (go_to_next_page E st)) = S (cur_page st)) /\
  (fst (go_to_next_page E st) = Ok false ->
     events (snd (go_to_next_page E st)) = events st /\
     cur_page (snd (go_to_next_page E st)) = cur_page st) /\
  (forall e, first_clickable (pg_clickable (current E st)) next_selectors = Raise e ->
     logs (snd (go_to_next_page E st)) =
       logs st ++ [(WARNING, "Error navigating to next page"%string)]).
Proof.
  rewrite go_to_next_page_scan.
  destruct (first_clickable _ _) as [[|] | e]; cbn;
    repeat split; intros; try discriminate; try congruence.
Qed.

(** Extra: [accept_cookies] never raises and never changes [self.data],
    the browser's page or its other actions.  It returns [True] exactly
    when the first cookie selector whose wait does not time out is
    clickable; a driver error while waiting is logged as a warning and gives
    [False]. *)
Theorem accept_cookies_outcome (E : env) (st : St) :
  fst (accept_cookies E st) =
    Ok (match first_clickable (pg_clickable (current E st)) cookie_selectors with
        | Ok b => b
        | Raise _ => false
        end) /\
  data (snd (accept_cookies E st)) = data st /\
  events (snd (accept_cookies E st)) = events st /\
  cur_page (snd (accept_cookies E st)) = cur_page st /\
  (forall e, first_clickable (pg_clickable (current E st)) cookie_selectors = Raise e ->
     logs (snd (accept_cookies E st)) = logs st ++ [(WARNING, "Could not handle cookies"%string)]).
Proof.
  rewrite accept_cookies_scan.
  destruct (first_clickable _ _) as [[|] | e]; cbn;
    repeat split; intros; try discriminate; try congruence.
Qed.

(** Extra: [_scrape_current_page] returns the number of records it
    appended to [self.data].  When [find_elements] raises, it logs an error,
    returns 0 and leaves [self.data] as it was. *)
Theorem scrape_current_page_count (u : ucd) (E : env) (st : St) :
  fst (scrape_current_page u E st) =
    Ok (Z.of_nat (List.length (data (snd (scrape_current_page u E st))) - List.length (data st))) /\
  (forall e, pg_cards (current E st) = Raise e ->
     fst (scrape_current_page u E st) = Ok 0%Z /\
     data (snd (scrape_current_page u E st)) = data st /\
     logs (snd (scrape_current_page u E st)) =
       logs st ++ [(ERROR, "Error scraping current page"%string)]).
Proof.
  destruct (scrape_current_page_eq u E st) as (F & D & L & _).
  split.
  - rewrite F, D, length_app. do 2 f_equal. lia.
  - intros e H. rewrite H in F, D, L. cbn in F, D, L.
    rewrite app_nil_r in D. auto.
Qed.

(** Extra: [_extract_single_hotel] never raises.  It returns [None], logging
    one warning, exactly when one of the six lookups raises a driver
    exception other than [NoSuchElementException]; otherwise it returns the
    record of the stripped texts, with the price and the rating cleaned, and
    logs nothing. *)
Theorem extract_single_hotel_outcome (u : ucd) (c : card) (st : St) :
  (fst (extract_single_hotel u c st) = Ok None <-> card_faults u c = true) /\
  (card_faults u c = true ->
     logs (snd (extract_single_hotel u c st)) = logs st ++ [card_warning] /\
     data (snd (extract_single_hotel u c st)) = data st) /\
  (card_faults u c = false ->
     extract_single_hotel u c st =
     (Ok (Some {| hotel_name := text_of u c sel_title;
                  price := clean_price u (text_of u c sel_price);
                  rating := clean_rating u (text_of u c sel_rating);
                  location := text_of u c sel_location;
                  review_count := text_of u c sel_review_count;
                  distance := text_of u c sel_distance |}), st)).
Proof.
  rewrite extract_single_hotel_eq.
  destruct (card_faults u c); cbn; repeat split; intros; try discriminate; auto.
Qed.

Section StripProofs.
Variable u : ucd.

Lemma lstrip_split (s : pystr) :
  exists pre, s = pre ++ lstrip u s /\ forallb (uc_isspace u) pre = true /\
              starts_with (uc_isspace u) (lstrip u s) = false.
Proof.
  induction s as [| c s IH]; [exists []; auto |].
  cbn [lstrip]. destruct (uc_isspace u c) eqn:C.
  - destruct IH as (pre & H1 & H2 & H3). exists (c :: pre).
    cbn. rewrite C, H2, <- H1. auto.
  - exists []. cbn. rewrite C. auto.
Qed.

Lemma forallb_rev {A} (p : A -> bool) (l : list A) : forallb p (rev l) = forallb p l.
Proof.
  induction l as [| x l IH]; [reflexivity |].
  cbn. rewrite forallb_app, IH. cbn. rewrite andb_true_r, andb_comm. reflexivity.
Qed.

Lemma py_strip_split (s : pystr) :
  exists pre post, s = pre ++ py_strip u s ++ post /\
    forallb (uc_isspace u) pre = true /\ forallb (uc_isspace u) post = true /\
    starts_with (uc_isspace u) (py_strip u s) = false /\
    starts_with (uc_isspace u) (rev (py_strip u s)) = false.
Proof.
  destruct (lstrip_split s) as (pre1 & S1 & P1 & T1).
  set (t := lstrip u s) in *.
  destruct (lstrip_split (rev t)) as (pre2 & S2 & P2 & T2).
  set (x := lstrip u (rev t)) in *.
  assert (Ht : t = rev x ++ rev pre2).
  { rewrite <- rev_app_distr, <- S2, rev_involutive. reflexivity. }
  unfold py_strip. fold t. fold x.
  exists pre1, (rev pre2).
  refine (conj _ (conj P1 (conj _ (conj _ _)))).
  - rewrite S1 at 1. rewrite Ht. reflexivity.
  - rewrite forallb_rev. exact P2.
  - destruct (rev x) as [| y ys] eqn:R; [reflexivity |].
    rewrite Ht in T1. exact T1.
  - rewrite rev_involutive. exact T2.
Qed.

Lemma filter_all {A} (f : A -> bool) (l : list A) :
  (forall x, In x l -> f x = true) -> filter f l = l.
Proof.
  induction l as [| x l IH]; intros H; [reflexivity |].
  cbn. rewrite (H x (or_introl eq_refl)), IH; [reflexivity |].
  intros y Hy. apply H. right. exact Hy.
Qed.

Lemma filter_none {A} (f : A -> bool) (l : list A) :
  (forall x, In x l -> f x = false) -> filter f l = [].
Proof.
  induction l as [| x l IH]; intros H; [reflexivity |].
  cbn. rewrite (H x (or_introl eq_refl)). apply IH.
  intros y Hy. apply H. right. exact Hy.
Qed.

Lemma clean_price_cleaned (s : pystr) :
  s <> [] ->
  (forall c, In c s -> uc_isdigit u c = true -> uc_isspace u c = false) ->
  uc_isspace u dot = false ->
  filter (fun c => uc_isdigit u c || (c =? dot)%N) s <> [] ->
  clean_price u s =
  match py_float u (filter (fun c => uc_isdigit u c || (c =? dot)%N) s) with
  | Some f => f
  | None => PFin 0
  end.
Proof.
  intros Hs Hsp Hdot Hne.
  unfold clean_price. destruct s as [| x s']; [congruence |].
  set (s := x :: s') in *.
  unfold py_split. rewrite (split_aux_nospace u).
  - destruct (filter _ s) as [| y ys]; [congruence | reflexivity].
  - intros c Hc. apply filter_In in Hc. destruct Hc as [Hs' Hc].
    apply orb_true_iff in Hc. destruct Hc as [Hc | Hc].
    + apply Hsp; assumption.
    + apply N.eqb_eq in Hc. subst c. exact Hdot.
Qed.

Lemma span_dec_rest_in (s : pystr) (x : pychar) :
  In x s -> is_dec u x = false -> In x (snd (span_dec u s)).
Proof.
  induction s as [| c s IH]; intros H Hx; [destruct H |].
  cbn [span_dec]. destruct (is_dec u c) eqn:C.
  - destruct H as [-> | H]; [congruence |].
    specialize (IH H Hx). destruct (span_dec u s) as [d r]. exact IH.
  - exact H.
Qed.

Lemma count_dot_rest (Hdot : is_dec u dot = false) (s : pystr) :
  count_occ N.eq_dec (snd (span_dec u s)) dot = count_occ N.eq_dec s dot.
Proof.
  destruct (span_dec_split u s) as (S1 & S2 & _).
  rewrite S1 at 2. rewrite count_occ_app.
  match goal with |- _ = (?a + _)%nat => assert (Z0 : a = 0%nat) end.
  { apply count_occ_not_In. intros H. apply S2 in H. congruence. }
  rewrite Z0. reflexivity.
Qed.

Lemma py_float_two_dots (Hdot : is_dec u dot = false) (t : pystr) :
  (2 <= count_occ N.eq_dec t dot)%nat -> py_float u t = None.
Proof.
  intros H. unfold py_float.
  pose proof (count_dot_rest Hdot t) as C.
  change (@count_occ pychar) with (@count_occ N) in C.
  destruct (span_dec u t) as [ip rest]. cbn [snd] in C.
  destruct rest as [| c rest']; [cbn in C; lia |].
  destruct (c =? dot)%N eqn:D; [| reflexivity].
  apply N.eqb_eq in D. subst c.
  rewrite count_occ_cons_eq in C by reflexivity.
  change (@count_occ pychar) with (@count_occ N) in C.
  assert (Hin : In dot rest') by (apply (count_occ_In N.eq_dec); lia).
  pose proof (span_dec_rest_in rest' dot Hin Hdot) as R.
  destruct (span_dec u rest') as [fp rest'']. cbn [snd] in R.
  destruct rest''; [destruct R | reflexivity].
Qed.

End StripProofs.

(** Extra: the text [_safe_extract_text] returns for a found element is the
    element's text with the leading and trailing whitespace cut off: the
    text is [pre ++ t ++ post] with [pre] and [post] all whitespace, and
    [t] neither starts nor ends with whitespace. *)
Theorem safe_extract_text_trimmed (u : ucd) (c : card) (sel : string) (st : St) (raw : pystr) :
  find_element c sel = Ok raw ->
  exists t pre post,
    fst (safe_extract_text u c sel st) = Ok t /\
    raw = pre ++ t ++ post /\
    forallb (uc_isspace u) pre = true /\ forallb (uc_isspace u) post = true /\
    starts_with (uc_isspace u) t = false /\ starts_with (uc_isspace u) (rev t) = false.
Proof.
  intros H. rewrite safe_extract_text_eq. unfold field. rewrite H.
  destruct (py_strip_split u raw) as (pre & post & S1 & S2 & S3 & S4 & S5).
  exists (py_strip u raw), pre, post. split; [reflexivity | auto].
Qed.

Lemma safe_extract_text_trimmed_witness :
  find_element [(sel_title, Ok (pys " The Shelbourne  "))] sel_title = Ok (pys " The Shelbourne  ") /\
  exists t pre post,
    fst (safe_extract_text ucd_latin1 [(sel_title, Ok (pys " The Shelbourne  "))] sel_title new_scraper)
      = Ok t /\
    pys " The Shelbourne  " = pre ++ t ++ post /\
    forallb (uc_isspace ucd_latin1) pre = true /\ forallb (uc_isspace ucd_latin1) post = true /\
    starts_with (uc_isspace ucd_latin1) t = false /\
    starts_with (uc_isspace ucd_latin1) (rev t) = false.
Proof.
  split; [reflexivity |].
  exact (safe_extract_text_trimmed ucd_latin1 [(sel_title, Ok (pys " The Shelbourne  "))] sel_title
           new_scraper (pys " The Shelbourne  ") eq_refl).
Defined.

(** Extra: [_clean_price] drops every character that is neither a digit nor
    '.', whitespace included, before it splits, so the split never separates
    two numbers: on a price range such as "€120 - €150" the digits of both
    numbers are joined and read as one number (120150.0). *)
Theorem clean_price_joins_numbers (u : ucd) (pre d1 sep d2 : pystr) :
  d1 <> [] ->
  forallb (fun c => is_dec u c && uc_isdigit u c && negb (uc_isspace u c)) (d1 ++ d2) = true ->
  forallb (fun c => negb (uc_isdigit u c) && negb (c =? dot)%N) (pre ++ sep) = true ->
  uc_isspace u dot = false ->
  clean_price u (pre ++ d1 ++ sep ++ d2) = to_pyfloat (dec_value u (d1 ++ d2) []).
Proof.
  intros Hd1 Hd Hsep Hdot.
  rewrite forallb_forall in Hd, Hsep.
  assert (Dg : forall c, In c (d1 ++ d2) ->
                 is_dec u c = true /\ uc_isdigit u c = true /\ uc_isspace u c = false).
  { intros c Hc. specialize (Hd c Hc). apply andb_true_iff in Hd. destruct Hd as [Hd H3].
    apply andb_true_iff in Hd. destruct Hd as [H1 H2]. apply negb_true_iff in H3. auto. }
  assert (Sp : forall c, In c (pre ++ sep) -> uc_isdigit u c = false /\ (c =? dot)%N = false).
  { intros c Hc. specialize (Hsep c Hc). apply andb_true_iff in Hsep.
    destruct Hsep as [H1 H2]. apply negb_true_iff in H1, H2. auto. }
  assert (F : filter (fun c => uc_isdigit u c || (c =? dot)%N) (pre ++ d1 ++ sep ++ d2) = d1 ++ d2).
  { rewrite !filter_app.
    rewrite (filter_none _ pre), (filter_none _ sep), (filter_all _ d1), (filter_all _ d2).
    - reflexivity.
    - intros c Hc. destruct (Dg c ltac:(apply in_or_app; right; exact Hc)) as (_ & H & _).
      rewrite H. reflexivity.
    - intros c Hc. destruct (Dg c ltac:(apply in_or_app; left; exact Hc)) as (_ & H & _).
      rewrite H. reflexivity.
    - intros c Hc. destruct (Sp c ltac:(apply in_or_app; right; exact Hc)) as [H1 H2].
      rewrite H1, H2. reflexivity.
    - intros c Hc. destruct (Sp c ltac:(apply in_or_app; left; exact Hc)) as [H1 H2].
      rewrite H1, H2. reflexivity. }
  rewrite clean_price_cleaned.
  - rewrite F, (py_float_integer u); [reflexivity | |].
    + destruct d1; [congruence | discriminate].
    + intros c Hc. apply Dg. exact Hc.
  - destruct pre; [destruct d1; [congruence | discriminate] | discriminate].
  - intros c Hc Hdig. apply in_app_or in Hc. destruct Hc as [Hc | Hc].
    + destruct (Sp c ltac:(apply in_or_app; left; exact Hc)) as [H1 _]. congruence.
    + apply in_app_or in Hc. destruct Hc as [Hc | Hc].
      * apply Dg. apply in_or_app. left. exact Hc.
      * apply in_app_or in Hc. destruct Hc as [Hc | Hc].
        -- destruct (Sp c ltac:(apply in_or_app; right; exact Hc)) as [H1 _]. congruence.
        -- apply Dg. apply in_or_app. right. exact Hc.
  - exact Hdot.
  - rewrite F. destruct d1; [congruence | discriminate].
Qed.

Lemma clean_price_joins_numbers_witness :
  pys "120" <> [] /\
  forallb (fun c => is_dec ucd_latin1 c && uc_isdigit ucd_latin1 c && negb (uc_isspace ucd_latin1 c))
    (pys "120" ++ pys "150") = true /\
  forallb (fun c => negb (uc_isdigit ucd_latin1 c) && negb (c =? dot)%N)
    ([8364%N] ++ pys " - " ++ [8364%N]) = true /\
  uc_isspace ucd_latin1 dot = false /\
  clean_price ucd_latin1 ([8364%N] ++ pys "120" ++ (pys " - " ++ [8364%N]) ++ pys "150") =
    to_pyfloat (dec_value ucd_latin1 (pys "120" ++ pys "150") []).
Proof.
  split; [discriminate |]. split; [vm_compute; reflexivity |].
  split; [vm_compute; reflexivity |]. split; [reflexivity |].
  apply (clean_price_joins_numbers ucd_latin1 [8364%N] (pys "120") (pys " - " ++ [8364%N]) (pys "150"));
    [discriminate | vm_compute; reflexivity | vm_compute; reflexivity | reflexivity].
Defined.

(** Extra: a price text with two or more '.' characters gives 0.0 (when
    '.' is neither a decimal digit nor whitespace and no digit character is
    whitespace): all the dots survive the cleaning and [float()] rejects
    the token, as for "1.234.56". *)
Theorem clean_price_two_dots (u : ucd) (s : pystr) :
  is_dec u dot = false -> uc_isspace u dot = false ->
  forallb (fun c => negb (uc_isdigit u c) || negb (uc_isspace u c)) s = true ->
  (2 <= count_occ N.eq_dec s dot)%nat ->
  clean_price u s = PFin 0.
Proof.
  intros Hdec Hdot Hsp H2.
  rewrite forallb_forall in Hsp.
  assert (C : count_occ N.eq_dec (filter (fun c => uc_isdigit u c || (c =? dot)%N) s) dot
              = count_occ N.eq_dec s dot).
  { clear -s. induction s as [| c s IH]; [reflexivity |].
    cbn [filter]. destruct (N.eq_dec c dot) as [-> | Hne].
    - rewrite N.eqb_refl, orb_true_r. rewrite !count_occ_cons_eq by reflexivity. f_equal. exact IH.
    - rewrite (count_occ_cons_neq _ _ Hne).
      destruct (uc_isdigit u c || (c =? dot)%N); [rewrite (count_occ_cons_neq _ _ Hne) |]; exact IH. }
  rewrite clean_price_cleaned.
  - rewrite py_float_two_dots; [reflexivity | exact Hdec | lia].
  - intros Hs. subst s. cbn in H2. lia.
  - intros c Hc Hd. specialize (Hsp c Hc). rewrite Hd in Hsp. cbn in Hsp.
    apply negb_true_iff. exact Hsp.
  - exact Hdot.
  - intros Hf. rewrite Hf in C. cbn in C. lia.
Qed.

Lemma clean_price_two_dots_witness :
  is_dec ucd_latin1 dot = false /\ uc_isspace ucd_latin1 dot = false /\
  forallb (fun c => negb (uc_isdigit ucd_latin1 c) || negb (uc_isspace ucd_latin1 c))
    (8364%N :: pys "1.234.56") = true /\
  (2 <= count_occ N.eq_dec (8364%N :: pys "1.234.56") dot)%nat /\
  clean_price ucd_latin1 (8364%N :: pys "1.234.56") = PFin 0.
Proof.
  split; [reflexivity |]. split; [reflexivity |]. split; [vm_compute; reflexivity |].
  split; [vm_compute; lia |].
  apply (clean_price_two_dots ucd_latin1 (8364%N :: pys "1.234.56"));
    [reflexivity | reflexivity | vm_compute; reflexivity | vm_compute; lia].
Defined.

Section SysProofs.

Lemma on_scraper_sys {A} (m : M A) (sy : Sys) :
  files (snd (on_scraper m sy)) = files sy /\ quits (snd (on_scraper m sy)) = quits sy /\
  scraper (snd (on_scraper m sy)) = snd (m (scraper sy)) /\
  fst (on_scraper m sy) = match fst (m (scraper sy)) with
                          | Ok a => SOk a
                          | Raise e => SRaise (DriverError e)
                          end.
Proof.
  unfold on_scraper. destruct (m (scraper sy)) as [[a | e] st]; auto.
Qed.

Lemma path_join_data (filename : string) :
  path_join "data" filename =
  if String.prefix "/" filename then filename else ("data/" ++ filename)%string.
Proof. unfold path_join. destruct (String.prefix "/" filename); reflexivity. Qed.

Lemma close_sys (O : os_env) (sy : Sys) :
  files (snd (close O sy)) = files sy /\ quits (snd (close O sy)) = S (quits sy) /\
  data (scraper (snd (close O sy))) = data (scraper sy) /\
  fst (close O sy) = match os_quit O with None => SOk tt | Some e => SRaise e end.
Proof. unfold close. destruct (os_quit O); cbn; auto. Qed.

Lemma close_logs (O : os_env) (sy : Sys) :
  logs (scraper (snd (close O sy))) =
    logs (scraper sy) ++ match os_quit O with
                         | None => [(INFO, "WebDriver closed"%string)]
                         | Some _ => []
                         end.
Proof. unfold close. destruct (os_quit O); cbn; [rewrite app_nil_r |]; reflexivity. Qed.

End SysProofs.

Lemma save_to_csv_keeps (E : env) (O : os_env) (filename : string) (sy : Sys) :
  data (scraper (snd (save_to_csv E O filename sy))) = data (scraper sy) /\
  quits (snd (save_to_csv E O filename sy)) = quits sy.
Proof.
  split.
  - unfold save_to_csv, sbind, os_call, write_file, on_scraper.
    destruct (data (scraper sy)) as [| h d] eqn:D; [cbn; exact D |].
    destruct (os_makedirs O "data"); [exact D |].
    destruct (create_dataframe_eq (at_time E (os_now O)) (scraper sy)) as (F1 & F2 & _).
    destruct (create_dataframe (at_time E (os_now O)) (scraper sy)) as [[df | e] st] eqn:C;
      cbn in F1, F2 |- *; [| discriminate].
    destruct (os_to_csv O (path_join "data" filename)); cbn; congruence.
  - unfold save_to_csv, sbind, os_call, write_file, on_scraper.
    destruct (data (scraper sy)) as [| h d]; [reflexivity |].
    destruct (os_makedirs O "data"); [reflexivity |].
    destruct (create_dataframe (at_time E (os_now O)) (scraper sy)) as [[df | e] st]; [| reflexivity].
    destruct (os_to_csv O (path_join "data" filename)); reflexivity.
Qed.

Lemma save_to_csv_files (E : env) (O : os_env) (filename : string) (sy : Sys) :
  match data (scraper sy) with
  | [] =>
      fst (save_to_csv E O filename sy) = SOk tt /\
      files (snd (save_to_csv E O filename sy)) = files sy /\
      logs (scraper (snd (save_to_csv E O filename sy))) =
        logs (scraper sy) ++ [(WARNING, "No data to save"%string)]
  | d =>
      match os_makedirs O "data", os_to_csv O (path_join "data" filename) with
      | None, None =>
          fst (save_to_csv E O filename sy) = SOk tt /\
          files (snd (save_to_csv E O filename sy)) =
            (path_join "data" filename, to_frame (at_time E (os_now O)) d) :: files sy
      | Some e, _ | None, Some e =>
          fst (save_to_csv E O filename sy) = SRaise e /\
          files (snd (save_to_csv E O filename sy)) = files sy
      end
  end.
Proof.
  unfold save_to_csv, sbind, os_call, write_file, on_scraper.
  destruct (data (scraper sy)) as [| h d] eqn:D; [auto |].
  destruct (os_makedirs O "data"); [auto |].
  destruct (create_dataframe_eq (at_time E (os_now O)) (scraper sy)) as (F1 & _ & _).
  rewrite D in F1.
  destruct (create_dataframe (at_time E (os_now O)) (scraper sy)) as [[df | e] st];
    cbn in F1 |- *; [| discriminate].
  injection F1 as ->.
  destruct (os_to_csv O (path_join "data" filename)); cbn; auto.
Qed.

(** Extra: [save_to_csv] keeps [self.data] and never calls [driver.quit()].
    With no data it only logs a warning and writes nothing.  Otherwise, if
    [os.makedirs] and [to_csv] succeed, it writes to [data/<filename>] (or to
    [filename] itself when that is an absolute path) one row per record of
    [self.data], stamped with the time of the save; if either of them fails,
    the exception escapes and no file is written. *)
Theorem save_to_csv_outcome (E : env) (O : os_env) (filename : string) (sy : Sys) :
  data (scraper (snd (save_to_csv E O filename sy))) = data (scraper sy) /\
  quits (snd (save_to_csv E O filename sy)) = quits sy /\
  path_join "data" filename =
    (if String.prefix "/" filename then filename else "data/" ++ filename)%string /\
  match data (scraper sy) with
  | [] =>
      fst (save_to_csv E O filename sy) = SOk tt /\
      files (snd (save_to_csv E O filename sy)) = files sy /\
      logs (scraper (snd (save_to_csv E O filename sy))) =
        logs (scraper sy) ++ [(WARNING, "No data to save"%string)]
  | d =>
      match os_makedirs O "data", os_to_csv O (path_join "data" filename) with
      | None, None =>
          fst (save_to_csv E O filename sy) = SOk tt /\
          files (snd (save_to_csv E O filename sy)) =
            (path_join "data" filename, to_frame (at_time E (os_now O)) d) :: files sy
      | Some e, _ | None, Some e =>
          fst (save_to_csv E O filename sy) = SRaise e /\
          files (snd (save_to_csv E O filename sy)) = files sy
      end
  end.
Proof.
  destruct (save_to_csv_keeps E O filename sy) as [K1 K2].
  refine (conj K1 (conj K2 (conj (path_join_data filename) _))).
  apply save_to_csv_files.
Qed.

Section MainProofs.
Variable u : ucd.
Variable E : env.
Variable O : os_env.

(** The [try]/[except] of [main]. *)
Definition main_try : MS unit :=
  stry
    (sbind (on_scraper (scrape_hotel_data u E SEARCH_URL 3)) (fun df =>
       match df with
       | [] => sret tt
       | _ :: _ => save_to_csv E O "hotels.csv"
       end))
    (fun _ => on_scraper (log ERROR "Scraping failed")).

Lemma main_eq (sy : Sys) :
  main u E O sy =
  match os_setup O with
  | Some e => hotel_scraper_init O sy
  | None => sfinally main_try (close O) (set_scraper (scraper_after_init (scraper sy)) sy)
  end.
Proof. unfold main, sbind at 1, hotel_scraper_init. destruct (os_setup O); reflexivity. Qed.

Lemma main_try_sys (sy : Sys) :
  fst (main_try sy) = SOk tt /\ quits (snd (main_try sy)) = quits sy /\
  files (snd (main_try sy)) =
    match fst (scrape_hotel_data u E SEARCH_URL 3 (scraper sy)),
          os_makedirs O "data", os_to_csv O "data/hotels.csv" with
    | Ok (_ :: _), None, None =>
        ("data/hotels.csv"%string,
         to_frame (at_time E (os_now O)) (data (snd (scrape_hotel_data u E SEARCH_URL 3 (scraper sy)))))
          :: files sy
    | _, _, _ => files sy
    end.
Proof.
  unfold main_try, stry, sbind.
  destruct (on_scraper_sys (scrape_hotel_data u E SEARCH_URL 3) sy) as (S1 & S2 & S3 & S4).
  destruct (scrape_hotel_data_eq u E SEARCH_URL 3 (scraper sy)) as (_ & _ & _ & _ & _ & _ & _ & R).
  destruct (scrape_hotel_data u E SEARCH_URL 3 (scraper sy)) as [r st1].
  cbn [fst snd] in S3, S4, R |- *.
  destruct (on_scraper (scrape_hotel_data u E SEARCH_URL 3) sy) as [r' sy1].
  cbn [fst snd] in S1, S2, S3, S4. subst r'.
  destruct r as [df | e].
  - destruct df as [| row rows].
    + cbn. destruct (os_makedirs O "data"), (os_to_csv O "data/hotels.csv"); auto.
    + assert (Hd : data st1 <> []).
      { destruct R as [R | [R _]]; [| discriminate].
        injection R as R. destruct (data st1); [discriminate | discriminate]. }
      destruct (save_to_csv_keeps E O "hotels.csv" sy1) as [_ Q].
      pose proof (save_to_csv_files E O "hotels.csv" sy1) as F.
      rewrite S3 in F.
      assert (Hp : path_join "data" "hotels.csv" = "data/hotels.csv"%string) by reflexivity.
      rewrite Hp in F.
      destruct (data st1) as [| h d] eqn:D; [congruence |].
      destruct (save_to_csv E O "hotels.csv" sy1) as [r2 sy2].
      cbn [fst snd] in F, Q.
      destruct (os_makedirs O "data"), (os_to_csv O "data/hotels.csv");
        destruct F as [-> F]; cbn [fst snd];
        try (destruct (on_scraper_sys (log ERROR "Scraping failed") sy2) as (T1 & T2 & _ & _);
             rewrite T1, T2);
        rewrite F, Q, S1, S2; auto.
  - destruct (on_scraper_sys (log ERROR "Scraping failed") sy1) as (T1 & T2 & _ & _).
    cbn [fst snd]. rewrite T1, T2, S1, S2. auto.
Qed.

Lemma main_try_logs (sy : Sys) :
  match fst (scrape_hotel_data u E SEARCH_URL 3 (scraper sy)),
        os_makedirs O "data", os_to_csv O "data/hotels.csv" with
  | Ok [], _, _ | Ok (_ :: _), None, None => True
  | _, _, _ =>
      exists l, logs (scraper (snd (main_try sy))) = l ++ [(ERROR, "Scraping failed"%string)]
  end.
Proof.
  unfold main_try, stry, sbind.
  destruct (on_scraper_sys (scrape_hotel_data u E SEARCH_URL 3) sy) as (_ & _ & S3 & S4).
  destruct (scrape_hotel_data_eq u E SEARCH_URL 3 (scraper sy)) as (_ & _ & _ & _ & _ & _ & _ & R).
  destruct (scrape_hotel_data u E SEARCH_URL 3 (scraper sy)) as [r st1].
  cbn [fst snd] in S3, S4, R |- *.
  destruct (on_scraper (scrape_hotel_data u E SEARCH_URL 3) sy) as [r' sy1].
  cbn [fst snd] in S3, S4. subst r'.
  destruct r as [df | e].
  - destruct df as [| row rows]; [exact I |].
    assert (Hd : data st1 <> []).
    { destruct R as [R | [R _]]; [| discriminate].
      injection R as R. destruct (data st1); [discriminate | discriminate]. }
    pose proof (save_to_csv_files E O "hotels.csv" sy1) as F.
    rewrite S3 in F.
    assert (Hp : path_join "data" "hotels.csv" = "data/hotels.csv"%string) by reflexivity.
    rewrite Hp in F.
    destruct (data st1) as [| h d] eqn:D; [congruence |].
    destruct (save_to_csv E O "hotels.csv" sy1) as [r2 sy2].
    cbn [fst snd] in F.
    destruct (os_makedirs O "data"), (os_to_csv O "data/hotels.csv");
      destruct F as [-> _]; try exact I; exists (logs (scraper sy2)); reflexivity.
  - exists (logs (scraper sy1)). reflexivity.
Qed.

End MainProofs.

(** Extra: [main] calls [driver.quit()] exactly once whenever the driver
    was set up, whatever happens while scraping and saving, and it fails only
    when setting up the driver or quitting it fails.  An exception escaping
    the scrape or [save_to_csv] is caught and logged as "Scraping failed". *)
Theorem main_closes_driver (u : ucd) (E : env) (O : os_env) (sy : Sys) :
  quits (snd (main u E O sy)) =
    match os_setup O with None => S (quits sy) | Some _ => quits sy end /\
  fst (main u E O sy) =
    match os_setup O, os_quit O with
    | Some e, _ => SRaise e
    | None, Some e => SRaise e
    | None, None => SOk tt
    end /\
  match os_setup O,
        fst (scrape_hotel_data u E SEARCH_URL 3 (scraper_after_init (scraper sy))),
        os_makedirs O "data", os_to_csv O "data/hotels.csv" with
  | Some _, _, _, _ | None, Ok [], _, _ | None, Ok (_ :: _), None, None => True
  | None, _, _, _ => In (ERROR, "Scraping failed"%string) (logs (scraper (snd (main u E O sy))))
  end.
Proof.
  rewrite main_eq. destruct (os_setup O) as [e |] eqn:Hs.
  - unfold hotel_scraper_init. rewrite Hs. auto.
  - unfold sfinally.
    set (sy0 := set_scraper (scraper_after_init (scraper sy)) sy).
    destruct (main_try_sys u E O sy0) as (R & Q & _).
    pose proof (main_try_logs u E O sy0) as L.
    change (scraper sy0) with (scraper_after_init (scraper sy)) in L.
    destruct (main_try u E O sy0) as [r sy1]. cbn [fst snd] in R, Q, L. subst r.
    destruct (close_sys O sy1) as (_ & Q2 & _ & C).
    pose proof (close_logs O sy1) as L2.
    destruct (close O sy1) as [r2 sy2]. cbn [fst snd] in Q2, C, L2.
    assert (Hin : match fst (scrape_hotel_data u E SEARCH_URL 3 (scraper_after_init (scraper sy))),
                        os_makedirs O "data", os_to_csv O "data/hotels.csv" with
                  | Ok [], _, _ | Ok (_ :: _), None, None => True
                  | _, _, _ => In (ERROR, "Scraping failed"%string) (logs (scraper sy2))
                  end).
    { destruct (fst (scrape_hotel_data u E SEARCH_URL 3 (scraper_after_init (scraper sy))))
        as [[| row rows] | e];
        destruct (os_makedirs O "data"), (os_to_csv O "data/hotels.csv");
        try exact I; destruct L as [l Hl]; rewrite L2, Hl;
        apply in_or_app; left; apply in_or_app; right; left; reflexivity. }
    destruct (os_quit O); subst r2; cbn [fst snd]; rewrite Q2, Q;
      (split; [reflexivity | split; [reflexivity | exact Hin]]).
Qed.

(** Extra: [main] writes [data/hotels.csv] exactly when the driver was set
    up, the scrape returned a non-empty frame, and [os.makedirs] and
    [to_csv] succeed; it then holds the records of this run's pages, in page
    order (the new instance starts with no data), stamped with the time of the
    save.  Otherwise no file is written. *)
Theorem main_writes_hotels_csv (u : ucd) (E : env) (O : os_env) (sy : Sys) :
  files (snd (main u E O sy)) =
    match os_setup O,
          fst (scrape_hotel_data u E SEARCH_URL 3 (scraper_after_init (scraper sy))),
          os_makedirs O "data", os_to_csv O "data/hotels.csv" with
    | None, Ok (_ :: _), None, None =>
        ("data/hotels.csv"%string,
         to_frame (at_time E (os_now O))
           (data (snd (scrape_hotel_data u E SEARCH_URL 3 (scraper_after_init (scraper sy))))))
          :: files sy
    | _, _, _, _ => files sy
    end /\
  exists k, (k <= 3)%nat /\
    data (snd (scrape_hotel_data u E SEARCH_URL 3 (scraper_after_init (scraper sy)))) =
      List.concat (map (recs_at u E) (seq 0 k)).
Proof.
  split.
  - rewrite main_eq. destruct (os_setup O) as [e |] eqn:Hs.
    + unfold hotel_scraper_init. rewrite Hs. reflexivity.
    + unfold sfinally.
      set (sy0 := set_scraper (scraper_after_init (scraper sy)) sy).
      destruct (main_try_sys u E O sy0) as (_ & _ & F).
      change (scraper sy0) with (scraper_after_init (scraper sy)) in F.
      change (files sy0) with (files sy) in F.
      destruct (main_try u E O sy0) as [r sy1]. cbn [fst snd] in F.
      destruct (close_sys O sy1) as (F2 & _ & _ & C).
      destruct (close O sy1) as [r2 sy2]. cbn [fst snd] in F2, C.
      destruct r2; cbn [snd]; rewrite F2; exact F.
  - destruct (scrape_hotel_data_eq u E SEARCH_URL 3 (scraper_after_init (scraper sy)))
      as (k & _ & K & D & _).
    exists k. split; [exact K | exact D].
Qed.

Section NoDigitProofs.
Variable u : ucd.

Lemma split_aux_tokens (P : pychar -> Prop) (s : pystr) : forall cur,
  Forall P s -> Forall P cur -> Forall (Forall P) (split_aux u s cur).
Proof.
  induction s as [| c s IH]; intros cur Hs Hc; cbn [split_aux].
  - destruct cur; [constructor | constructor; [apply Forall_rev; exact Hc | constructor]].
  - inversion Hs as [| ? ? Hc0 Hs']; subst.
    destruct (uc_isspace u c).
    + destruct cur; [apply IH; auto |].
      constructor; [apply Forall_rev; exact Hc | apply IH; auto].
    + apply IH; [exact Hs' | constructor; assumption].
Qed.

Lemma py_float_dots (Hdot : is_dec u dot = false) (t : pystr) :
  Forall (fun c => c = dot) t -> py_float u t = None.
Proof.
  intros H. unfold py_float.
  destruct t as [| c t]; [reflexivity |].
  inversion H as [| ? ? Hc Ht]; subst.
  cbn [span_dec]. rewrite Hdot, N.eqb_refl.
  destruct t as [| c t]; [reflexivity |].
  inversion Ht; subst. cbn [span_dec]. rewrite Hdot. reflexivity.
Qed.

End NoDigitProofs.

(** Extra: a price text with no digit character, such as "Price on
    request", gives 0.0 (when '.' is not a decimal digit): the cleaned text
    holds at most some dots, which [float()] rejects. *)
Theorem clean_price_no_digit (u : ucd) (s : pystr) :
  is_dec u dot = false ->
  forallb (fun c => negb (uc_isdigit u c)) s = true ->
  clean_price u s = PFin 0.
Proof.
  intros Hdot Hs. unfold clean_price.
  destruct s as [| x s']; [reflexivity |].
  set (s := x :: s') in *.
  assert (Hf : Forall (fun c => c = dot)
                 (filter (fun c => uc_isdigit u c || (c =? dot)%N) s)).
  { apply Forall_forall. intros c Hc. apply filter_In in Hc. destruct Hc as [Hin Hc].
    rewrite forallb_forall in Hs. specialize (Hs c Hin).
    apply negb_true_iff in Hs. rewrite Hs in Hc. apply N.eqb_eq. exact Hc. }
  pose proof (split_aux_tokens u _ _ [] Hf (Forall_nil _)) as T.
  unfold py_split. destruct (split_aux u _ []) as [| n0 rest]; [reflexivity |].
  inversion T as [| ? ? T0 _]; subst.
  rewrite (py_float_dots u Hdot n0 T0). reflexivity.
Qed.

Lemma clean_price_no_digit_witness :
  is_dec ucd_latin1 dot = false /\
  forallb (fun c => negb (uc_isdigit ucd_latin1 c)) (pys "Price on request.") = true /\
  clean_price ucd_latin1 (pys "Price on request.") = PFin 0.
Proof.
  split; [reflexivity |]. split; [vm_compute; reflexivity |].
  apply (clean_price_no_digit ucd_latin1 (pys "Price on request."));
    [reflexivity | vm_compute; reflexivity].
Defined.
